(** * tubeopt: sizing of a hollow steel tube

    A shallow embedding of [src/tubeopt.py]: the structural model
    [_TubeComponent] (its [setup] and [compute]) and the wrapper
    [TubeOptimization.optimize], followed by the properties the
    specification states about them.

    The program computes on numpy [float64] values.  The arithmetic it uses
    is collected in the class [Float64]; the program text is embedded once,
    generically over that class, and read at two instances:
    - [RealOps]: the operations of the real numbers, the reading under which
      the specification states its formulas;
    - [Binary64.B64Ops]: IEEE-754 binary64 as specified by the standard
      library's [SpecFloat], for the statements about infinities and NaN.

    Over the reals a quotient by zero still has a value, where the program
    gets an infinity or NaN; the statements over the reals are made under
    hypotheses that keep every denominator away from zero.

    OpenMDAO itself is not part of the program: its optimizer is a
    parameter ([run_driver]), and of its bookkeeping only what [setup]
    declares and what [get_val] reads back is modelled. *)

From Stdlib Require Import Reals Lra Lia ZArith QArith SpecFloat.
From stdpp Require Import gmap strings list fin_maps.

Set Default Proof Using "Type".

(** ** The arithmetic of the program *)

Class Float64 (T : Type) := {
  (** a decimal literal of the source text, [0.001], [350e6], [2] *)
  f_lit : Q -> T;
  f_add : T -> T -> T;
  f_sub : T -> T -> T;
  f_mul : T -> T -> T;
  f_div : T -> T -> T;
  (** [x ** n] for a literal natural exponent *)
  f_pow : T -> nat -> T;
  (** [np.sqrt] *)
  np_sqrt : T -> T;
  (** [np.pi] *)
  np_pi : T;
  (** [round(x, ndigits)] *)
  py_round : T -> Z -> T
}.

Arguments f_lit {T _} q%_Q.

Declare Scope f64_scope.
Delimit Scope f64_scope with f64.
Notation "x + y" := (f_add x y) : f64_scope.
Notation "x - y" := (f_sub x y) : f64_scope.
Notation "x * y" := (f_mul x y) : f64_scope.
Notation "x / y" := (f_div x y) : f64_scope.
Notation "x ** n" := (f_pow x n) (at level 30, right associativity) : f64_scope.

(** ** The structural model, [class _TubeComponent] *)

Section TubeComponent.
Context {T : Type} `{Float64 T}.
Local Open Scope f64_scope.

(** The attributes [__init__] stores on the component. *)
Record _TubeComponent := TubeComponent_init {
  _axial_force : T;                (* N *)
  _bending_moment : T;             (* N*m *)
  _thickness_lower_bound : T;      (* mm *)
  _safety_margin_lower_bound : T   (* unitless *)
}.

(** *** What [setup] registers with the framework

    [add_input], [add_design_var], [add_output], [add_constraint] and
    [add_objective] are methods of the OpenMDAO base class; each records one
    declaration on the component, in the order of the calls.  A bound that
    a call does not pass is [None]. *)

Record InputDecl := {
  in_name : string; in_val : T; in_units : string }.
Record DesignVar := {
  dv_name : string; dv_lower : option T; dv_upper : option T }.
Record OutputDecl := {
  out_name : string; out_units : string }.
Record Constraint := {
  con_name : string; con_lower : option T; con_upper : option T }.

Record System := {
  var_inputs : list InputDecl;
  design_vars : list DesignVar;
  var_outputs : list OutputDecl;
  constraints : list Constraint;
  objectives : list string
}.

Definition empty_system : System :=
  {| var_inputs := []; design_vars := []; var_outputs := [];
     constraints := []; objectives := [] |}.

Definition add_input (name : string) (val : T) (units : string)
    (sys : System) : System :=
  {| var_inputs := var_inputs sys
       ++ [{| in_name := name; in_val := val; in_units := units |}];
     design_vars := design_vars sys; var_outputs := var_outputs sys;
     constraints := constraints sys; objectives := objectives sys |}.

Definition add_design_var (name : string) (lower upper : option T)
    (sys : System) : System :=
  {| var_inputs := var_inputs sys;
     design_vars := design_vars sys
       ++ [{| dv_name := name; dv_lower := lower; dv_upper := upper |}];
     var_outputs := var_outputs sys;
     constraints := constraints sys; objectives := objectives sys |}.

Definition add_output (name units : string) (sys : System) : System :=
  {| var_inputs := var_inputs sys; design_vars := design_vars sys;
     var_outputs := var_outputs sys
       ++ [{| out_name := name; out_units := units |}];
     constraints := constraints sys; objectives := objectives sys |}.

Definition add_constraint (name : string) (lower upper : option T)
    (sys : System) : System :=
  {| var_inputs := var_inputs sys; design_vars := design_vars sys;
     var_outputs := var_outputs sys;
     constraints := constraints sys
       ++ [{| con_name := name; con_lower := lower; con_upper := upper |}];
     objectives := objectives sys |}.

Definition add_objective (name : string) (sys : System) : System :=
  {| var_inputs := var_inputs sys; design_vars := design_vars sys;
     var_outputs := var_outputs sys; constraints := constraints sys;
     objectives := objectives sys ++ [name] |}.

(** [setup(self)], lines 15-35: the declarations, call by call. *)
Definition setup (self : _TubeComponent) (sys : System) : System :=
  (* Inputs *)
  let sys := add_input "inner_diam" (f_lit 0.060) "m" sys in
  let sys := add_input "outer_diam" (f_lit 0.100) "m" sys in
  let sys :=
    add_design_var "inner_diam" (Some (f_lit 0.005)) (Some (f_lit 0.5)) sys in
  let sys :=
    add_design_var "outer_diam" (Some (f_lit 0.01)) (Some (f_lit 0.6)) sys in
  (* Outputs *)
  let sys := add_output "area" "m**2" sys in
  let sys := add_output "thickness" "m" sys in
  let sys := add_output "safety_margins" "unitless" sys in
  let sys := add_output "diam_over_thickness" "unitless" sys in
  (* Constraints *)
  let sys :=
    add_constraint "thickness"
      (Some (_thickness_lower_bound self / f_lit 1000)) None sys in
  let sys :=
    add_constraint "safety_margins"
      (Some (_safety_margin_lower_bound self)) None sys in
  let sys :=
    add_constraint "diam_over_thickness"
      (Some (f_lit 2)) (Some (f_lit 25)) sys in
  (* Area *)
  add_objective "area" sys.

(** *** [compute] *)

(** The local variables of [compute] when it reaches its last line. *)
Record Locals := {
  area : T;
  thickness : T;
  diam_over_thickness : T;
  moment_of_inertia : T;
  radius : T;
  axial_stress : T;
  bending_stress : T;
  tensile_stress : T;
  tensile_yield : T;
  safety_margin : T
}.

(** Lines 42-59 of [compute], from the two inputs it has read. *)
Definition compute_locals (self : _TubeComponent)
    (inner_diam outer_diam : T) : Locals :=
  (* Section Properties *)
  let area := f_lit 0.25 * np_pi * (outer_diam ** 2 - inner_diam ** 2) in
  let thickness := (outer_diam - inner_diam) / f_lit 2 in
  let diam_over_thickness := outer_diam / thickness in
  let moment_of_inertia :=
    np_pi / f_lit 4
    * ((outer_diam / f_lit 2) ** 4 - (inner_diam / f_lit 2) ** 4) in
  let radius := outer_diam / f_lit 2 in
  (* Stress Components *)
  let axial_stress := _axial_force self / area in
  let bending_stress := _bending_moment self * radius / moment_of_inertia in
  (* Combined Stresses *)
  let tensile_stress :=
    np_sqrt ((axial_stress + bending_stress) ** 2 + f_lit 0.001) in
  (* Yield Strength *)
  let tensile_yield := f_lit 350e6 in
  (* Margins *)
  let safety_margin := tensile_yield / tensile_stress - f_lit 1 in
  {| area := area; thickness := thickness;
     diam_over_thickness := diam_over_thickness;
     moment_of_inertia := moment_of_inertia; radius := radius;
     axial_stress := axial_stress; bending_stress := bending_stress;
     tensile_stress := tensile_stress; tensile_yield := tensile_yield;
     safety_margin := safety_margin |}.

(** [compute(self, inputs, outputs)], lines 37-65: reads the two inputs by
    name ([None] is Python's [KeyError]) and stores the four outputs into
    the [outputs] mapping it was handed. *)
Definition compute (self : _TubeComponent)
    (inputs outputs : gmap string T) : option (gmap string T) :=
  inner_diam ← inputs !! "inner_diam";
  outer_diam ← inputs !! "outer_diam";
  let l := compute_locals self inner_diam outer_diam in
  let outputs := <["area" := area l]> outputs in
  let outputs := <["thickness" := thickness l]> outputs in
  let outputs := <["safety_margins" := safety_margin l]> outputs in
  let outputs := <["diam_over_thickness" := diam_over_thickness l]> outputs in
  Some outputs.

(** [outputs[k]] once [compute(inputs, outputs)] has run. *)
Definition output_of (self : _TubeComponent)
    (inputs outputs : gmap string T) (k : string) : option T :=
  compute self inputs outputs ≫= (λ outs, outs !! k).

End TubeComponent.

Arguments _TubeComponent T : clear implicits.
Arguments System T : clear implicits.
Arguments InputDecl T : clear implicits.
Arguments DesignVar T : clear implicits.
Arguments Constraint T : clear implicits.
Arguments Locals T : clear implicits.

(** ** The wrapper, [class TubeOptimization] *)

(** What a Python call does when it does not return normally. *)
Inductive PyExc := TypeError | KeyError.

Inductive PyResult (A : Type) :=
  | Returns (a : A)
  | Raises (e : PyExc).
Arguments Returns {A} a.
Arguments Raises {A} e.

Section TubeOptimization.
Context {T : Type} `{Float64 T}.
Local Open Scope f64_scope.

(** The attributes [__init__] stores, lines 82-85. *)
Record TubeOptimization := TubeOptimization_init {
  axial_force : T;      (* N *)
  bending_moment : T    (* N*m *)
}.

(** An [om.Problem] whose model holds the tube component with every
    variable promoted: the component, what its [setup] declared, and the
    current value of each variable in its declared units. *)
Record Problem := {
  tube : _TubeComponent T;
  model : System T;
  values : gmap string T
}.

(** [problem.setup()] after [model.add_subsystem('tube', comp,
    promotes=['*'])]: runs the component's [setup] and gives every input
    its declared initial value. *)
Definition Problem_setup (comp : _TubeComponent T) : Problem :=
  let sys := setup comp empty_system in
  {| tube := comp;
     model := sys;
     values := list_to_map (map (λ d, (in_name d, in_val d)) (var_inputs sys)) |}.

(** The units a variable was declared with. *)
Definition declared_units (sys : System T) (name : string) : option string :=
  match List.find (λ d, String.eqb (in_name d) name) (var_inputs sys) with
  | Some d => Some (in_units d)
  | None =>
      match List.find (λ d, String.eqb (out_name d) name) (var_outputs sys) with
      | Some d => Some (out_units d)
      | None => None
      end
  end.

(** The framework's unit conversion, for the units this program asks for:
    metres to millimetres multiplies by 1000, equal units change nothing. *)
Definition convert_units (val : T) (old_units new_units : string) : option T :=
  if String.eqb old_units new_units then Some val
  else if String.eqb old_units "m" && String.eqb new_units "mm"
       then Some (val * f_lit 1000)
  else None.

(** [problem.get_val(name, units=units)[0]] on the values [vals]. *)
Definition get_val (p : Problem) (vals : gmap string T)
    (name units : string) : option T :=
  val ← vals !! name;
  old_units ← declared_units (model p) name;
  convert_units val old_units units.

(** The optimizer is OpenMDAO's [ScipyOptimizeDriver] with finite-difference
    totals; it is not part of this program.  [run_driver p] is its failure
    flag ([true] when it failed to converge) and the values of the problem's
    variables it leaves behind. *)
Variable run_driver : Problem → bool * gmap string T.

(** The body of [optimize], lines 89-121. *)
Definition optimize (self : TubeOptimization)
    (minimim_safety_margin minimum_thickness : T)
    : option (bool * (T * T * T * T)) :=
  (* Creates Optimization Problem, adds Tube Component, sets up *)
  let problem :=
    Problem_setup
      (TubeComponent_init
         (axial_force self)          (* axial_force= *)
         (bending_moment self)       (* bending_moment= *)
         minimum_thickness           (* thickness_lower_bound= *)
         minimim_safety_margin)      (* safety_margin_lower_bound= *) in
  (* Runs the Optimization *)
  let '(flag, vals) := run_driver problem in
  inner_diam ← get_val problem vals "inner_diam" "mm";
  outer_diam ← get_val problem vals "outer_diam" "mm";
  thickness ← get_val problem vals "thickness" "mm";
  safety_margins ← get_val problem vals "safety_margins" "unitless";
  Some (negb flag,
        (py_round inner_diam 3, py_round outer_diam 3,
         py_round thickness 3, py_round safety_margins 4)).

(** The problem [optimize] has built when it calls the optimizer,
    lines 89-104. *)
Definition problem_of (self : TubeOptimization)
    (minimim_safety_margin minimum_thickness : T) : Problem :=
  Problem_setup
    (TubeComponent_init (axial_force self) (bending_moment self)
       minimum_thickness minimim_safety_margin).

(** *** Calling [optimize]

    [def optimize(self, minimim_safety_margin=0, minimum_thickness=1)]:
    the parameters after [self], in order, with their defaults. *)
Definition optimize_params : list (string * T) :=
  [("minimim_safety_margin", f_lit 0); ("minimum_thickness", f_lit 1)].

(** Python's argument binding.  Positional arguments fill the parameters
    in order; one too many is a [TypeError]. *)
Fixpoint bind_positional (params : list (string * T)) (args : list T)
    (env : gmap string T) : option (gmap string T) :=
  match args, params with
  | [], _ => Some env
  | a :: args, (p, _) :: params => bind_positional params args (<[p := a]> env)
  | _ :: _, [] => None
  end.

(** A keyword argument must name a parameter that has no value yet. *)
Fixpoint bind_keywords (params : list (string * T))
    (kwargs : list (string * T)) (env : gmap string T)
    : option (gmap string T) :=
  match kwargs with
  | [] => Some env
  | (k, v) :: kwargs =>
      if bool_decide (k ∈ params.*1) then
        match env !! k with
        | Some _ => None
        | None => bind_keywords params kwargs (<[k := v]> env)
        end
      else None
  end.

(** A parameter left without a value takes its default. *)
Definition bind_defaults (params : list (string * T))
    (env : gmap string T) : gmap string T :=
  foldr (λ '(p, d) e, match e !! p with Some _ => e | None => <[p := d]> e end)
        env params.

Definition bind_args (params : list (string * T)) (args : list T)
    (kwargs : list (string * T)) : option (gmap string T) :=
  env ← bind_positional params args ∅;
  env ← bind_keywords params kwargs env;
  Some (bind_defaults params env).

(** A call [self.optimize(...)] with the positional arguments [args] and
    the keyword arguments [kwargs]. *)
Definition call_optimize (self : TubeOptimization) (args : list T)
    (kwargs : list (string * T)) : PyResult (bool * (T * T * T * T)) :=
  match bind_args optimize_params args kwargs with
  | None => Raises TypeError
  | Some env =>
      match env !! "minimim_safety_margin", env !! "minimum_thickness" with
      | Some minimim_safety_margin, Some minimum_thickness =>
          match optimize self minimim_safety_margin minimum_thickness with
          | Some r => Returns r
          | None => Raises KeyError
          end
      | _, _ => Raises TypeError
      end
  end.

(** The keywords of a call are acceptable when they are distinct and each
    names a parameter that is not among [bound], the parameters already
    given positionally. *)
Definition keywords_ok (params kwargs : list (string * T))
    (bound : gset string) : Prop :=
  NoDup kwargs.*1 ∧ ∀ k, k ∈ kwargs.*1 → k ∈ params.*1 ∧ k ∉ bound.

(** *** Constructing the two objects

    [def __init__(self, axial_force, bending_moment,
    thickness_lower_bound=1, safety_margin_lower_bound=0)], line 7, and
    [def __init__(self, axial_force, bending_moment)], line 82: the
    parameters after [self]; one without a default ([None]) is required. *)
Definition TubeComponent_params : list (string * option T) :=
  [("axial_force", None); ("bending_moment", None);
   ("thickness_lower_bound", Some (f_lit 1));
   ("safety_margin_lower_bound", Some (f_lit 0))].

Definition TubeOptimization_params : list (string * option T) :=
  [("axial_force", None); ("bending_moment", None)].

(** Argument binding when parameters may be required: positional
    arguments in order, keywords by name, then the defaults; a required
    parameter still without a value is a [TypeError] ([None]). *)
Fixpoint bind_positional_req (params : list (string * option T))
    (args : list T) (env : gmap string T) : option (gmap string T) :=
  match args, params with
  | [], _ => Some env
  | a :: args, (p, _) :: params =>
      bind_positional_req params args (<[p := a]> env)
  | _ :: _, [] => None
  end.

Fixpoint bind_keywords_req (params : list (string * option T))
    (kwargs : list (string * T)) (env : gmap string T)
    : option (gmap string T) :=
  match kwargs with
  | [] => Some env
  | (k, v) :: kwargs =>
      if bool_decide (k ∈ params.*1) then
        match env !! k with
        | Some _ => None
        | None => bind_keywords_req params kwargs (<[k := v]> env)
        end
      else None
  end.

Fixpoint bind_defaults_req (params : list (string * option T))
    (env : gmap string T) : option (gmap string T) :=
  match params with
  | [] => Some env
  | (p, d) :: params =>
      match env !! p, d with
      | Some _, _ => bind_defaults_req params env
      | None, Some d => bind_defaults_req params (<[p := d]> env)
      | None, None => None
      end
  end.

Definition bind_call (params : list (string * option T)) (args : list T)
    (kwargs : list (string * T)) : option (gmap string T) :=
  env ← bind_positional_req params args ∅;
  env ← bind_keywords_req params kwargs env;
  bind_defaults_req params env.

(** A call [_TubeComponent(...)]: [__init__] stores its four parameters,
    lines 10-13. *)
Definition TubeComponent_call (args : list T) (kwargs : list (string * T))
    : PyResult (_TubeComponent T) :=
  match bind_call TubeComponent_params args kwargs with
  | None => Raises TypeError
  | Some env =>
      match env !! "axial_force", env !! "bending_moment",
            env !! "thickness_lower_bound",
            env !! "safety_margin_lower_bound" with
      | Some axial_force, Some bending_moment,
        Some thickness_lower_bound, Some safety_margin_lower_bound =>
          Returns (TubeComponent_init axial_force bending_moment
                     thickness_lower_bound safety_margin_lower_bound)
      | _, _, _, _ => Raises TypeError
      end
  end.

(** A call [TubeOptimization(...)]: [__init__] stores its two parameters,
    lines 84-85. *)
Definition TubeOptimization_call (args : list T) (kwargs : list (string * T))
    : PyResult TubeOptimization :=
  match bind_call TubeOptimization_params args kwargs with
  | None => Raises TypeError
  | Some env =>
      match env !! "axial_force", env !! "bending_moment" with
      | Some axial_force, Some bending_moment =>
          Returns (TubeOptimization_init axial_force bending_moment)
      | _, _ => Raises TypeError
      end
  end.

End TubeOptimization.

Arguments TubeOptimization T : clear implicits.
Arguments Problem T : clear implicits.

(** ** The real-number reading *)

Module RealModel.
Local Open Scope R_scope.

(** Round half to even, the rule of [np.rint] and of Python's [round]. *)
Definition rint (x : R) : Z :=
  let f := Int_part x in
  if Rlt_dec (frac_part x) (1/2) then f
  else if Rlt_dec (1/2) (frac_part x) then (f + 1)%Z
  else if Z.even f then f else (f + 1)%Z.

(** [round(x, ndigits)] on a [float64] scalar: scale by [10**ndigits],
    round to the nearest integer, scale back. *)
Definition round_ndigits (x : R) (ndigits : Z) : R :=
  IZR (rint (x * powerRZ 10 ndigits)) / powerRZ 10 ndigits.

(** The specification's words, "[r] is [x] rounded to [ndigits] decimal
    places": [r] is a whole number of units [10^-ndigits] and lies within
    half a unit of [x].  Stated apart from [round_ndigits], to compare the
    two. *)
Definition spec_rounded_to (ndigits : nat) (x r : R) : Prop :=
  ∃ k : Z, r = IZR k / 10 ^ ndigits ∧ Rabs (r - x) <= / 2 / 10 ^ ndigits.

#[export] Instance RealOps : Float64 R := {
  f_lit := Q2R;
  f_add := Rplus;
  f_sub := Rminus;
  f_mul := Rmult;
  f_div := Rdiv;
  f_pow := pow;
  np_sqrt := sqrt;
  np_pi := PI;
  py_round := round_ndigits
}.

(** *** Bounds, as the optimizer reads them

    A design variable or a constraint is declared with a [lower] and an
    [upper] bound; a value meets the declaration when it is not below the
    one and not above the other, and a bound that was not passed does not
    bind. *)
Definition within (lower upper : option R) (v : R) : Prop :=
  match lower with Some l => l <= v | None => True end
  ∧ match upper with Some u => v <= u | None => True end.

(** Every design variable of [sys] has a value in [inputs], inside its
    bounds. *)
Definition in_design_bounds (sys : System R) (inputs : gmap string R)
    : Prop :=
  Forall (λ d, ∃ v, inputs !! dv_name d = Some v
                    ∧ within (dv_lower d) (dv_upper d) v)
         (design_vars sys).

(** Every constrained output of [sys] has a value in [outputs], inside
    its bounds. *)
Definition meets_constraints (sys : System R) (outputs : gmap string R)
    : Prop :=
  Forall (λ c, ∃ v, outputs !! con_name c = Some v
                    ∧ within (con_lower c) (con_upper c) v)
         (constraints sys).

(** A feasible design point of the component: inside the design-variable
    bounds, with the outputs [compute] stores for it meeting every
    constraint [setup] declared. *)
Definition feasible (comp : _TubeComponent R) (inputs : gmap string R)
    : Prop :=
  in_design_bounds (setup comp empty_system) inputs
  ∧ ∃ outs, compute comp inputs ∅ = Some outs
            ∧ meets_constraints (setup comp empty_system) outs.

End RealModel.

(** ** The binary64 reading *)

Module Binary64.

Definition prec : Z := 53.
Definition emax : Z := 1024.

(** An integer, rounded to the nearest binary64 value. *)
Definition of_Z (z : Z) : spec_float := binary_normalize prec emax z 0 false.

(** A decimal literal [n/d]: for the literals of this program ([n] and [d]
    below [2^53]) the correctly rounded quotient is the binary64 value
    nearest to the literal, which is what Python reads. *)
Definition b64_lit (q : Q) : spec_float :=
  SFdiv prec emax (of_Z (Qnum q)) (of_Z (Z.pos (Qden q))).

(** [np.pi], [0x1.921fb54442d18p+1]. *)
Definition b64_pi : spec_float := S754_finite false 7074237752028440 (-51).

(** Neither an infinity nor NaN. *)
Definition is_finite (x : spec_float) : bool :=
  match x with
  | S754_zero _ | S754_finite _ _ _ => true
  | S754_infinity _ | S754_nan => false
  end.

Section Ops.
(** [x ** n] beyond the four operations is the C library's [pow], and
    [round] is numpy's; neither is specified by [SpecFloat]. *)
Variable libm_pow : spec_float → nat → spec_float.
Variable np_round : spec_float → Z → spec_float.

#[export] Instance B64Ops : Float64 spec_float := {
  f_lit := b64_lit;
  f_add := SFadd prec emax;
  f_sub := SFsub prec emax;
  f_mul := SFmul prec emax;
  f_div := SFdiv prec emax;
  f_pow := libm_pow;
  np_sqrt := SFsqrt prec emax;
  np_pi := b64_pi;
  py_round := np_round
}.
End Ops.

(** On a float64 array numpy evaluates [x ** 2] as [np.square], the single
    rounded product [x * x]; every other exponent is left to [pow]. *)
Definition np_power (pow : spec_float → nat → spec_float)
    (x : spec_float) (n : nat) : spec_float :=
  match n with
  | 2%nat => SFmul prec emax x x
  | _ => pow x n
  end.

End Binary64.

(** * Properties *)

(** ** What [compute] stores, for any arithmetic *)

Section ComputeFacts.
Context {T : Type} `{Float64 T}.
Implicit Types (self : _TubeComponent T) (inputs outputs : gmap string T).

(** With both inputs present [compute] returns, and the mapping it returns
    is [outputs] with the four results stored. *)
Lemma compute_Some self inputs outputs i o :
  inputs !! "inner_diam" = Some i →
  inputs !! "outer_diam" = Some o →
  compute self inputs outputs =
    Some (<["diam_over_thickness" := diam_over_thickness (compute_locals self i o)]>
          (<["safety_margins" := safety_margin (compute_locals self i o)]>
          (<["thickness" := thickness (compute_locals self i o)]>
          (<["area" := area (compute_locals self i o)]> outputs)))).
Proof.
  intros Hi Ho. unfold compute. rewrite Hi, Ho. reflexivity.
Qed.

(** The four names under which [compute] has stored its results. *)
Lemma compute_outputs self inputs outputs i o :
  inputs !! "inner_diam" = Some i →
  inputs !! "outer_diam" = Some o →
  ∃ outs,
    compute self inputs outputs = Some outs
    ∧ outs !! "area" = Some (area (compute_locals self i o))
    ∧ outs !! "thickness" = Some (thickness (compute_locals self i o))
    ∧ outs !! "diam_over_thickness"
      = Some (diam_over_thickness (compute_locals self i o))
    ∧ outs !! "safety_margins"
      = Some (safety_margin (compute_locals self i o)).
Proof.
  intros Hi Ho. eexists. split; [exact (compute_Some _ _ _ _ _ Hi Ho)|].
  generalize (compute_locals self i o). intros l.
  repeat split; by simplify_map_eq.
Qed.

Lemma output_of_area self inputs outputs i o :
  inputs !! "inner_diam" = Some i → inputs !! "outer_diam" = Some o →
  output_of self inputs outputs "area" = Some (area (compute_locals self i o)).
Proof.
  intros Hi Ho. unfold output_of. rewrite (compute_Some _ _ _ _ _ Hi Ho).
  simpl. by simplify_map_eq.
Qed.

Lemma output_of_thickness self inputs outputs i o :
  inputs !! "inner_diam" = Some i → inputs !! "outer_diam" = Some o →
  output_of self inputs outputs "thickness"
  = Some (thickness (compute_locals self i o)).
Proof.
  intros Hi Ho. unfold output_of. rewrite (compute_Some _ _ _ _ _ Hi Ho).
  simpl. by simplify_map_eq.
Qed.

Lemma output_of_safety_margins self inputs outputs i o :
  inputs !! "inner_diam" = Some i → inputs !! "outer_diam" = Some o →
  output_of self inputs outputs "safety_margins"
  = Some (safety_margin (compute_locals self i o)).
Proof.
  intros Hi Ho. unfold output_of. rewrite (compute_Some _ _ _ _ _ Hi Ho).
  simpl. by simplify_map_eq.
Qed.

Lemma output_of_diam_over_thickness self inputs outputs i o :
  inputs !! "inner_diam" = Some i → inputs !! "outer_diam" = Some o →
  output_of self inputs outputs "diam_over_thickness"
  = Some (diam_over_thickness (compute_locals self i o)).
Proof.
  intros Hi Ho. unfold output_of. rewrite (compute_Some _ _ _ _ _ Hi Ho).
  simpl. by simplify_map_eq.
Qed.

(** The locals depend on the component through its two loads only. *)
Lemma compute_locals_loads self1 self2 i o :
  _axial_force self1 = _axial_force self2 →
  _bending_moment self1 = _bending_moment self2 →
  compute_locals self1 i o = compute_locals self2 i o.
Proof. intros HF HM. unfold compute_locals. by rewrite HF, HM. Qed.

(** Without one of its inputs [compute] raises, whatever the rest is. *)
Lemma compute_None_inner self inputs outputs :
  inputs !! "inner_diam" = None → compute self inputs outputs = None.
Proof. intros Hi. unfold compute. by rewrite Hi. Qed.

Lemma compute_None_outer self inputs outputs :
  inputs !! "outer_diam" = None → compute self inputs outputs = None.
Proof.
  intros Ho. unfold compute. rewrite Ho.
  by destruct (inputs !! "inner_diam").
Qed.

(** C9: [compute] is deterministic.  Two evaluations whose components carry
    the same loads and whose inputs agree on [inner_diam] and [outer_diam]
    leave the same value under each of the names [area], [thickness],
    [diam_over_thickness] and [safety_margins]; nothing else the component
    holds, no other entry of the inputs and no earlier content of the
    outputs has a part in them.  This holds for any arithmetic, binary64
    included. *)
Theorem compute_deterministic self1 self2 in1 in2 out1 out2 k :
  _axial_force self1 = _axial_force self2 →
  _bending_moment self1 = _bending_moment self2 →
  in1 !! "inner_diam" = in2 !! "inner_diam" →
  in1 !! "outer_diam" = in2 !! "outer_diam" →
  k ∈ ["area"; "thickness"; "diam_over_thickness"; "safety_margins"] →
  output_of self1 in1 out1 k = output_of self2 in2 out2 k.
Proof.
  intros HF HM Hi Ho Hk.
  destruct (in1 !! "inner_diam") as [i|] eqn:Hi1; symmetry in Hi;
    [|unfold output_of; by rewrite !compute_None_inner].
  destruct (in1 !! "outer_diam") as [o|] eqn:Ho1; symmetry in Ho;
    [|unfold output_of; by rewrite !compute_None_outer].
  unfold output_of.
  rewrite (compute_Some self1 _ _ _ _ Hi1 Ho1), (compute_Some self2 _ _ _ _ Hi Ho).
  rewrite (compute_locals_loads self1 self2 i o HF HM). simpl.
  repeat (apply elem_of_cons in Hk as [->|Hk]; [by simplify_map_eq|]).
  by apply elem_of_nil in Hk.
Qed.

End ComputeFacts.

(** ** The wrapper, for any arithmetic and any optimizer *)

Section OptimizeFacts.
Context {T : Type} `{Float64 T}.
Variable run_driver : Problem T → bool * gmap string T.
Implicit Types (self : TubeOptimization T) (vals : gmap string T).
Local Open Scope f64_scope.

(** What [setup] declares on a component that has no declarations yet. *)
Lemma setup_eq (comp : _TubeComponent T) :
  setup comp empty_system
  = {| var_inputs :=
         [ {| in_name := "inner_diam"; in_val := f_lit 0.060;
              in_units := "m" |};
           {| in_name := "outer_diam"; in_val := f_lit 0.100;
              in_units := "m" |} ];
       design_vars :=
         [ {| dv_name := "inner_diam"; dv_lower := Some (f_lit 0.005);
              dv_upper := Some (f_lit 0.5) |};
           {| dv_name := "outer_diam"; dv_lower := Some (f_lit 0.01);
              dv_upper := Some (f_lit 0.6) |} ];
       var_outputs :=
         [ {| out_name := "area"; out_units := "m**2" |};
           {| out_name := "thickness"; out_units := "m" |};
           {| out_name := "safety_margins"; out_units := "unitless" |};
           {| out_name := "diam_over_thickness"; out_units := "unitless" |} ];
       constraints :=
         [ {| con_name := "thickness";
              con_lower := Some (_thickness_lower_bound comp / f_lit 1000);
              con_upper := None |};
           {| con_name := "safety_margins";
              con_lower := Some (_safety_margin_lower_bound comp);
              con_upper := None |};
           {| con_name := "diam_over_thickness";
              con_lower := Some (f_lit 2); con_upper := Some (f_lit 25) |} ];
       objectives := ["area"] |}.
Proof. vm_compute. reflexivity. Qed.

Lemma declared_units_setup (comp : _TubeComponent T) :
  declared_units (setup comp empty_system) "inner_diam" = Some "m"
  ∧ declared_units (setup comp empty_system) "outer_diam" = Some "m"
  ∧ declared_units (setup comp empty_system) "thickness" = Some "m"
  ∧ declared_units (setup comp empty_system) "safety_margins"
    = Some "unitless".
Proof. repeat split; vm_compute; reflexivity. Qed.

Lemma convert_units_m_mm (v : T) :
  convert_units v "m" "mm" = Some (v * f_lit 1000).
Proof. reflexivity. Qed.

Lemma convert_units_unitless (v : T) :
  convert_units v "unitless" "unitless" = Some v.
Proof. reflexivity. Qed.

Lemma get_val_m_mm (comp : _TubeComponent T) vals name v :
  name ∈ ["inner_diam"; "outer_diam"; "thickness"] →
  vals !! name = Some v →
  get_val (Problem_setup comp) vals name "mm" = Some (v * f_lit 1000).
Proof.
  intros Hn Hv. unfold get_val. rewrite Hv.
  change (model (Problem_setup comp)) with (setup comp empty_system).
  destruct (declared_units_setup comp) as (Ui & Uo & Ut & _).
  repeat (apply elem_of_cons in Hn as [->|Hn];
          [first [rewrite Ui | rewrite Uo | rewrite Ut];
           exact (convert_units_m_mm v)|]).
  by apply elem_of_nil in Hn.
Qed.

Lemma get_val_safety_margins (comp : _TubeComponent T) vals v :
  vals !! "safety_margins" = Some v →
  get_val (Problem_setup comp) vals "safety_margins" "unitless" = Some v.
Proof.
  intros Hv. unfold get_val. rewrite Hv.
  change (model (Problem_setup comp)) with (setup comp empty_system).
  destruct (declared_units_setup comp) as (_ & _ & _ & Us). rewrite Us.
  exact (convert_units_unitless v).
Qed.

(** What [optimize] returns, from what the optimizer returned. *)
Lemma optimize_eq self msm mt flag vals vi vo vt vs :
  run_driver (problem_of self msm mt) = (flag, vals) →
  vals !! "inner_diam" = Some vi → vals !! "outer_diam" = Some vo →
  vals !! "thickness" = Some vt → vals !! "safety_margins" = Some vs →
  optimize run_driver self msm mt
  = Some (negb flag,
          (py_round (vi * f_lit 1000) 3, py_round (vo * f_lit 1000) 3,
           py_round (vt * f_lit 1000) 3, py_round vs 4)).
Proof.
  intros Hrun Hi Ho Ht Hs. unfold optimize.
  fold (problem_of self msm mt). rewrite Hrun.
  unfold problem_of.
  rewrite (get_val_m_mm _ _ "inner_diam" vi), (get_val_m_mm _ _ "outer_diam" vo),
    (get_val_m_mm _ _ "thickness" vt), (get_val_safety_margins _ _ vs);
    try done; set_solver.
Qed.

(** Positional arguments reach [optimize] in the order of the [def]. *)
Lemma call_optimize_positional self msm mt :
  call_optimize run_driver self [msm; mt] []
  = match optimize run_driver self msm mt with
    | Some r => Returns r
    | None => Raises KeyError
    end.
Proof. reflexivity. Qed.

(** The defaults are [0] and [1]. *)
Lemma call_optimize_defaults self :
  call_optimize run_driver self [] []
  = call_optimize run_driver self [f_lit 0; f_lit 1] [].
Proof. reflexivity. Qed.

(** The keywords the [def] declares are accepted. *)
Lemma call_optimize_keywords self msm mt :
  call_optimize run_driver self []
    [("minimim_safety_margin", msm); ("minimum_thickness", mt)]
  = call_optimize run_driver self [msm; mt] [].
Proof. reflexivity. Qed.

(** C2: whatever the optimizer reports, [optimize] returns rather than
    raises (the optimizer having left a value for each of the four names
    read back); the first component of what it returns is [true] exactly
    when the failure flag is [false], and the numbers are read from the
    values the optimizer left, the same way for either flag. *)
Theorem optimize_reports_convergence self msm mt flag vals :
  run_driver (problem_of self msm mt) = (flag, vals) →
  (∀ name,
     name ∈ ["inner_diam"; "outer_diam"; "thickness"; "safety_margins"] →
     is_Some (vals !! name)) →
  ∃ converged vi vo vt vs,
    vals !! "inner_diam" = Some vi ∧ vals !! "outer_diam" = Some vo
    ∧ vals !! "thickness" = Some vt ∧ vals !! "safety_margins" = Some vs
    ∧ call_optimize run_driver self [msm; mt] []
      = Returns (converged,
                 (py_round (vi * f_lit 1000) 3, py_round (vo * f_lit 1000) 3,
                  py_round (vt * f_lit 1000) 3, py_round vs 4))
    ∧ (converged = true ↔ flag = false)
    ∧ (flag = true → converged = false).
Proof.
  intros Hrun Hall.
  destruct (Hall "inner_diam") as [vi Hi]; [set_solver|].
  destruct (Hall "outer_diam") as [vo Ho]; [set_solver|].
  destruct (Hall "thickness") as [vt Ht]; [set_solver|].
  destruct (Hall "safety_margins") as [vs Hs]; [set_solver|].
  exists (negb flag), vi, vo, vt, vs. repeat (split; [done|]).
  split.
  - rewrite call_optimize_positional.
    by rewrite (optimize_eq _ _ _ _ _ _ _ _ _ Hrun Hi Ho Ht Hs).
  - by destruct flag.
Qed.

(** C4, where the code departs from it: the [def] spells the first
    parameter [minimim_safety_margin].  A call that passes the threshold
    under the name [minimum_safety_margin] is rejected with a [TypeError],
    whatever else it passes, while the same call under the misspelt name is
    the positional call; the second parameter is [minimum_thickness] as
    stated, and the defaults are 0 and 1. *)
Theorem optimize_rejects_minimum_safety_margin self v mt kwargs :
  call_optimize run_driver self [] (("minimum_safety_margin", v) :: kwargs)
  = Raises TypeError
  ∧ call_optimize run_driver self []
      [("minimim_safety_margin", v); ("minimum_thickness", mt)]
    = call_optimize run_driver self [v; mt] []
  ∧ call_optimize run_driver self [] []
    = call_optimize run_driver self [f_lit 0; f_lit 1] [].
Proof.
  split; [reflexivity|]. split.
  - apply call_optimize_keywords.
  - apply call_optimize_defaults.
Qed.

End OptimizeFacts.

(** ** The formulas, over the reals *)

Section RealFacts.
Import RealModel.
Local Open Scope R_scope.
Implicit Types (self : _TubeComponent R) (inputs outputs : gmap string R).

Lemma R_350e6 : 350e6 = 350000000.
Proof. change (Z.pow_pos 10 6) with 1000000%Z; lra. Qed.

(** A literal of the source is the real number it writes. *)
Ltac lit_tac :=
  rewrite ?R_350e6; unfold f_lit, RealOps, Q2R;
  match goal with
  | |- context [IZR (Qnum ?q)] =>
      let n := eval vm_compute in (Qnum q) in
      let d := eval vm_compute in (QDen q) in
      change (Qnum q) with n; change (QDen q) with d
  end; lra.

Lemma lit_0_25 : f_lit 0.25 = 0.25.
Proof. lit_tac. Qed.
Lemma lit_0_001 : f_lit 0.001 = 0.001.
Proof. lit_tac. Qed.
Lemma lit_350e6 : f_lit 350e6 = 350e6.
Proof. lit_tac. Qed.
Lemma lit_1 : f_lit 1 = 1.
Proof. lit_tac. Qed.
Lemma lit_2 : f_lit 2 = 2.
Proof. lit_tac. Qed.
Lemma lit_4 : f_lit 4 = 4.
Proof. lit_tac. Qed.

(** Read the class operations at [RealOps]. *)
Ltac to_real :=
  change (@f_add R RealOps) with Rplus in *;
  change (@f_sub R RealOps) with Rminus in *;
  change (@f_mul R RealOps) with Rmult in *;
  change (@f_div R RealOps) with Rdiv in *;
  change (@f_pow R RealOps) with pow in *;
  change (@np_sqrt R RealOps) with sqrt in *;
  change (@np_pi R RealOps) with PI in *;
  change (@py_round R RealOps) with round_ndigits in *;
  rewrite ?lit_0_25, ?lit_0_001, ?lit_350e6, ?lit_1, ?lit_2, ?lit_4 in *.

Lemma area_eq self i o :
  area (compute_locals self i o) = PI / 4 * (o ^ 2 - i ^ 2).
Proof. unfold compute_locals; cbn [area]; to_real; lra. Qed.

Lemma thickness_eq self i o :
  thickness (compute_locals self i o) = (o - i) / 2.
Proof. unfold compute_locals; cbn [thickness]; to_real; reflexivity. Qed.

Lemma diam_over_thickness_eq self i o :
  diam_over_thickness (compute_locals self i o) = o / ((o - i) / 2).
Proof. unfold compute_locals; cbn [diam_over_thickness]; to_real; reflexivity. Qed.

Lemma moment_of_inertia_eq self i o :
  moment_of_inertia (compute_locals self i o)
  = PI / 4 * ((o / 2) ^ 4 - (i / 2) ^ 4).
Proof. unfold compute_locals; cbn [moment_of_inertia]; to_real; reflexivity. Qed.

Lemma tensile_stress_eq self i o :
  tensile_stress (compute_locals self i o)
  = sqrt ((_axial_force self / (PI / 4 * (o ^ 2 - i ^ 2))
           + _bending_moment self * (o / 2)
             / (PI / 4 * ((o / 2) ^ 4 - (i / 2) ^ 4))) ^ 2 + 0.001).
Proof.
  unfold compute_locals; cbn [tensile_stress]; to_real.
  replace (0.25 * PI * (o ^ 2 - i ^ 2)) with (PI / 4 * (o ^ 2 - i ^ 2)) by lra.
  reflexivity.
Qed.

Lemma safety_margin_eq self i o :
  safety_margin (compute_locals self i o)
  = 350e6 / tensile_stress (compute_locals self i o) - 1.
Proof. unfold compute_locals; cbn [safety_margin tensile_stress]; to_real; reflexivity. Qed.

(** C1: for [0 < inner_diam < outer_diam] and any loads, [compute] returns
    and stores exactly [area = pi/4*(outer^2 - inner^2)],
    [thickness = (outer - inner)/2], [diam_over_thickness = outer/thickness]
    and [safety_margins = 350e6 / sqrt((F/area + M*(outer/2)/I)^2 + 0.001) - 1]
    with [I = pi/4*((outer/2)^4 - (inner/2)^4)]. *)
Theorem compute_formulas self inputs outputs inner_diam outer_diam :
  inputs !! "inner_diam" = Some inner_diam →
  inputs !! "outer_diam" = Some outer_diam →
  0 < inner_diam < outer_diam →
  let axial_force := _axial_force self in
  let bending_moment := _bending_moment self in
  let area := PI / 4 * (outer_diam ^ 2 - inner_diam ^ 2) in
  let thickness := (outer_diam - inner_diam) / 2 in
  ∃ outs,
    compute self inputs outputs = Some outs
    ∧ outs !! "area" = Some area
    ∧ outs !! "thickness" = Some thickness
    ∧ outs !! "diam_over_thickness" = Some (outer_diam / thickness)
    ∧ outs !! "safety_margins"
      = Some (350e6
              / sqrt ((axial_force / area
                       + bending_moment * (outer_diam / 2)
                         / (PI / 4 * ((outer_diam / 2) ^ 4
                                      - (inner_diam / 2) ^ 4))) ^ 2
                      + 0.001)
              - 1).
Proof.
  intros Hi Ho _. cbv zeta.
  eexists. split; [exact (compute_Some _ _ _ _ _ Hi Ho)|].
  rewrite <- (area_eq self), <- (thickness_eq self) at 1.
  rewrite <- (diam_over_thickness_eq self), <- tensile_stress_eq.
  rewrite <- safety_margin_eq.
  repeat split; by simplify_map_eq.
Qed.

Lemma compute_formulas_witness :
  ∃ outs,
    compute (TubeComponent_init 10e3 5e3 3 0.05)
      {[ "inner_diam" := 0.06; "outer_diam" := 0.1 ]} ∅ = Some outs
    ∧ outs !! "area" = Some (PI / 4 * (0.1 ^ 2 - 0.06 ^ 2))
    ∧ outs !! "thickness" = Some ((0.1 - 0.06) / 2)
    ∧ outs !! "diam_over_thickness" = Some (0.1 / ((0.1 - 0.06) / 2))
    ∧ outs !! "safety_margins"
      = Some (350e6
              / sqrt ((10e3 / (PI / 4 * (0.1 ^ 2 - 0.06 ^ 2))
                       + 5e3 * (0.1 / 2)
                         / (PI / 4 * ((0.1 / 2) ^ 4 - (0.06 / 2) ^ 4))) ^ 2
                      + 0.001)
              - 1).
Proof.
  apply (compute_formulas (TubeComponent_init 10e3 5e3 3 0.05)
           {[ "inner_diam" := 0.06; "outer_diam" := 0.1 ]} ∅ 0.06 0.1);
    [reflexivity | reflexivity | lra].
Defined.

(** *** Area against the outer diameter *)

(** C7, as amended: read over the real numbers, every operation of
    [compute] exact, with [inner_diam] fixed and positive outer diameters
    [d1 < d2] the area [compute] stores at [(inner_diam, d1)] is strictly
    below the one it stores at [(inner_diam, d2)].  Under binary64 rounding
    the inequality is not strict: the last lemma of this file has two
    adjacent outer diameters with one and the same area. *)
Theorem area_strictly_increasing self in1 in2 out1 out2 inner_diam d1 d2 :
  in1 !! "inner_diam" = Some inner_diam → in1 !! "outer_diam" = Some d1 →
  in2 !! "inner_diam" = Some inner_diam → in2 !! "outer_diam" = Some d2 →
  0 < d1 < d2 →
  ∃ a1 a2,
    output_of self in1 out1 "area" = Some a1
    ∧ output_of self in2 out2 "area" = Some a2
    ∧ a1 < a2.
Proof.
  intros Hi1 Ho1 Hi2 Ho2 [Hd1 Hd12].
  exists (area (compute_locals self inner_diam d1)),
         (area (compute_locals self inner_diam d2)).
  split; [by apply output_of_area|]. split; [by apply output_of_area|].
  rewrite !area_eq. pose proof PI_RGT_0 as Hpi.
  apply Rmult_lt_compat_l; [lra|]. nra.
Qed.

Lemma area_strictly_increasing_witness :
  ∃ a1 a2,
    output_of (TubeComponent_init 10e3 5e3 3 0.05)
      {[ "inner_diam" := 0.06; "outer_diam" := 0.1 ]} ∅ "area" = Some a1
    ∧ output_of (TubeComponent_init 10e3 5e3 3 0.05)
        {[ "inner_diam" := 0.06; "outer_diam" := 0.2 ]} ∅ "area" = Some a2
    ∧ a1 < a2.
Proof.
  apply (area_strictly_increasing (TubeComponent_init 10e3 5e3 3 0.05)
           {[ "inner_diam" := 0.06; "outer_diam" := 0.1 ]}
           {[ "inner_diam" := 0.06; "outer_diam" := 0.2 ]} ∅ ∅ 0.06 0.1 0.2);
    [reflexivity | reflexivity | reflexivity | reflexivity | lra].
Defined.

(** *** The smoothing term *)

Lemma sqrt_eps_pos : 0 < sqrt 0.001.
Proof. apply sqrt_lt_R0; lra. Qed.

Lemma sqrt_eps_bounds : 0.0316 < sqrt 0.001 < 0.0317.
Proof.
  split.
  - rewrite <- (sqrt_pow2 0.0316) by lra. apply sqrt_lt_1_alt; lra.
  - rewrite <- (sqrt_pow2 0.0317) by lra. apply sqrt_lt_1_alt; lra.
Qed.

(** The combined stress is never below [sqrt 0.001], whatever the two
    stress components are. *)
Lemma tensile_stress_ge self i o :
  sqrt 0.001 <= tensile_stress (compute_locals self i o).
Proof.
  rewrite tensile_stress_eq. apply sqrt_le_1_alt.
  match goal with |- _ <= ?x ^ 2 + _ => pose proof (pow2_ge_0 x) end. lra.
Qed.

Lemma safety_margin_le self i o :
  safety_margin (compute_locals self i o) <= 350e6 / sqrt 0.001 - 1.
Proof.
  rewrite safety_margin_eq, R_350e6.
  pose proof sqrt_eps_pos as H0. pose proof (tensile_stress_ge self i o) as Hge.
  unfold Rdiv. apply Rplus_le_compat_r, Rmult_le_compat_l; [lra|].
  apply Rinv_le_contravar; lra.
Qed.

(** C8: with both loads zero and [0 < inner_diam < outer_diam], the combined
    tensile stress is exactly [sqrt 0.001] (between 0.0316 and 0.0317) and
    the stored safety margin is exactly [350e6 / sqrt 0.001 - 1], which is
    above [10^10]. *)
Theorem zero_load_margin self inputs outputs inner_diam outer_diam :
  inputs !! "inner_diam" = Some inner_diam →
  inputs !! "outer_diam" = Some outer_diam →
  0 < inner_diam < outer_diam →
  _axial_force self = 0 → _bending_moment self = 0 →
  tensile_stress (compute_locals self inner_diam outer_diam) = sqrt 0.001
  ∧ 0.0316 < sqrt 0.001 < 0.0317
  ∧ output_of self inputs outputs "safety_margins"
    = Some (350e6 / sqrt 0.001 - 1)
  ∧ 10 ^ 10 < 350e6 / sqrt 0.001 - 1.
Proof.
  intros Hi Ho _ HF HM.
  assert (Hts : tensile_stress (compute_locals self inner_diam outer_diam)
                = sqrt 0.001).
  { rewrite tensile_stress_eq, HF, HM. f_equal.
    unfold Rdiv. rewrite !Rmult_0_l. lra. }
  split; [exact Hts|]. split; [exact sqrt_eps_bounds|]. split.
  - rewrite (output_of_safety_margins _ _ _ _ _ Hi Ho).
    by rewrite safety_margin_eq, Hts.
  - pose proof sqrt_eps_bounds as [Hlo Hhi]. rewrite R_350e6.
    assert (350000000 / 0.0317 <= 350000000 / sqrt 0.001).
    { unfold Rdiv. apply Rmult_le_compat_l; [lra|].
      apply Rinv_le_contravar; lra. }
    lra.
Qed.

Lemma zero_load_margin_witness :
  tensile_stress (compute_locals (TubeComponent_init 0 0 1 0) 0.06 0.1)
  = sqrt 0.001
  ∧ 0.0316 < sqrt 0.001 < 0.0317
  ∧ output_of (TubeComponent_init 0 0 1 0)
      {[ "inner_diam" := 0.06; "outer_diam" := 0.1 ]} ∅ "safety_margins"
    = Some (350e6 / sqrt 0.001 - 1)
  ∧ 10 ^ 10 < 350e6 / sqrt 0.001 - 1.
Proof.
  apply (zero_load_margin (TubeComponent_init 0 0 1 0)
           {[ "inner_diam" := 0.06; "outer_diam" := 0.1 ]} ∅ 0.06 0.1);
    [reflexivity | reflexivity | lra | reflexivity | reflexivity].
Defined.

(** C10: whenever the area and the moment of inertia are nonzero (so that
    both stress components are quotients of reals), the combined tensile
    stress is at least [sqrt 0.001 > 0], hence nonzero, and the stored
    safety margin lies above [-1] and is at most [350e6 / sqrt 0.001 - 1]. *)
Theorem safety_margin_bounded self inputs outputs inner_diam outer_diam :
  inputs !! "inner_diam" = Some inner_diam →
  inputs !! "outer_diam" = Some outer_diam →
  area (compute_locals self inner_diam outer_diam) ≠ 0 →
  moment_of_inertia (compute_locals self inner_diam outer_diam) ≠ 0 →
  0 < sqrt 0.001
  ∧ sqrt 0.001 <= tensile_stress (compute_locals self inner_diam outer_diam)
  ∧ tensile_stress (compute_locals self inner_diam outer_diam) ≠ 0
  ∧ ∃ m, output_of self inputs outputs "safety_margins" = Some m
         ∧ -1 < m <= 350e6 / sqrt 0.001 - 1.
Proof.
  intros Hi Ho _ _.
  pose proof sqrt_eps_pos as H0.
  pose proof (tensile_stress_ge self inner_diam outer_diam) as Hge.
  split; [exact H0|]. split; [exact Hge|]. split; [lra|].
  eexists. split; [exact (output_of_safety_margins _ _ _ _ _ Hi Ho)|].
  split; [|apply safety_margin_le].
  rewrite safety_margin_eq, R_350e6.
  assert (0 < 350000000 / tensile_stress (compute_locals self inner_diam outer_diam)).
  { apply Rdiv_lt_0_compat; lra. }
  lra.
Qed.

Lemma safety_margin_bounded_witness :
  0 < sqrt 0.001
  ∧ sqrt 0.001
    <= tensile_stress (compute_locals (TubeComponent_init 10e3 5e3 3 0.05) 0.06 0.1)
  ∧ tensile_stress (compute_locals (TubeComponent_init 10e3 5e3 3 0.05) 0.06 0.1)
    ≠ 0
  ∧ ∃ m, output_of (TubeComponent_init 10e3 5e3 3 0.05)
           {[ "inner_diam" := 0.06; "outer_diam" := 0.1 ]} ∅ "safety_margins"
         = Some m
         ∧ -1 < m <= 350e6 / sqrt 0.001 - 1.
Proof.
  apply (safety_margin_bounded (TubeComponent_init 10e3 5e3 3 0.05)
           {[ "inner_diam" := 0.06; "outer_diam" := 0.1 ]} ∅ 0.06 0.1);
    [reflexivity | reflexivity | |].
  - rewrite area_eq. pose proof PI_RGT_0. nra.
  - rewrite moment_of_inertia_eq. pose proof PI_RGT_0. nra.
Defined.

Lemma compute_deterministic_witness :
  output_of (TubeComponent_init 10e3 5e3 3 0.05)
    {[ "inner_diam" := 0.06; "outer_diam" := 0.1 ]} ∅ "safety_margins"
  = output_of (TubeComponent_init 10e3 5e3 1 0)
      {[ "inner_diam" := 0.06; "outer_diam" := 0.1; "area" := 7 ]}
      {[ "area" := 1; "other" := 2 ]} "safety_margins".
Proof.
  apply (compute_deterministic (T := R)
           (TubeComponent_init 10e3 5e3 3 0.05)
           (TubeComponent_init 10e3 5e3 1 0)
           {[ "inner_diam" := 0.06; "outer_diam" := 0.1 ]}
           {[ "inner_diam" := 0.06; "outer_diam" := 0.1; "area" := 7 ]}
           ∅ {[ "area" := 1; "other" := 2 ]} "safety_margins");
    [reflexivity | reflexivity | reflexivity | reflexivity | ].
  repeat constructor.
Defined.

(** *** Degenerate geometry over the reals *)

(** A positive outer diameter below the inner one gives a negative
    thickness and a negative ratio. *)
Lemma diam_over_thickness_negative self i o :
  0 < o < i →
  thickness (compute_locals self i o) < 0
  ∧ diam_over_thickness (compute_locals self i o) < 0.
Proof.
  intros [Ho Hoi]. rewrite thickness_eq, diam_over_thickness_eq.
  assert (Ht : (o - i) / 2 < 0) by lra. split; [exact Ht|].
  pose proof (Rinv_lt_0_compat _ Ht) as Hinv.
  unfold Rdiv at 1.
  replace 0 with (o * 0) by lra. by apply Rmult_lt_compat_l.
Qed.

(** *** Rounding *)

(** [rint] is within one half of its argument. *)
Lemma rint_close x : Rabs (IZR (rint x) - x) <= / 2.
Proof.
  unfold rint. pose proof (base_fp x) as [Hge Hlt].
  assert (Hx : x = IZR (Int_part x) + frac_part x) by (unfold frac_part; lra).
  set (f := Int_part x) in *. set (r := frac_part x) in *.
  destruct (Rlt_dec r (1 / 2)) as [Hr|Hr].
  - rewrite Hx. apply Rabs_le. lra.
  - destruct (Rlt_dec (1 / 2) r) as [Hr'|Hr'].
    + rewrite plus_IZR, Hx. apply Rabs_le. lra.
    + destruct (Z.even f); [|rewrite plus_IZR]; rewrite Hx; apply Rabs_le; lra.
Qed.

Lemma pow10_pos n : 0 < 10 ^ n.
Proof. apply pow_lt; lra. Qed.

(** [round(x, n)] for a literal [n >= 0] rounds to [n] decimal places. *)
Lemma round_ndigits_spec x (n : nat) :
  spec_rounded_to n x (round_ndigits x (Z.of_nat n)).
Proof.
  unfold spec_rounded_to, round_ndigits. rewrite <- pow_powerRZ.
  pose proof (pow10_pos n) as Hp.
  exists (rint (x * 10 ^ n)). split; [reflexivity|].
  pose proof (rint_close (x * 10 ^ n)) as Hc.
  replace (IZR (rint (x * 10 ^ n)) / 10 ^ n - x)
    with ((IZR (rint (x * 10 ^ n)) - x * 10 ^ n) / 10 ^ n) by (field; lra).
  unfold Rdiv. rewrite Rabs_mult, (Rabs_pos_eq (/ 10 ^ n)).
  - apply Rmult_le_compat_r; [|exact Hc].
    left. by apply Rinv_0_lt_compat.
  - left. by apply Rinv_0_lt_compat.
Qed.

Example round_ndigits_tie_even : round_ndigits 0.0125 3 = 0.012.
Proof.
  unfold round_ndigits. change (powerRZ 10 3) with (10 ^ 3).
  assert (Hi : Int_part (0.0125 * 10 ^ 3) = 12%Z).
  { symmetry. apply Int_part_spec. simpl. lra. }
  assert (Hf : frac_part (0.0125 * 10 ^ 3) = 1 / 2).
  { unfold frac_part. rewrite Hi. simpl. lra. }
  unfold rint. rewrite Hf, Hi.
  destruct (Rlt_dec (1 / 2) (1 / 2)) as [?|_]; [lra|].
  simpl. lra.
Qed.

(** *** The wrapper over the reals *)

Lemma lit_1000 : f_lit 1000 = 1000.
Proof. lit_tac. Qed.

Lemma optimize_reports_convergence_witness :
  ∃ converged vi vo vt vs,
    ({[ "inner_diam" := 0.05; "outer_diam" := 0.08; "thickness" := 0.015;
        "safety_margins" := 0.2 ]} : gmap string R) !! "inner_diam" = Some vi
    ∧ ({[ "inner_diam" := 0.05; "outer_diam" := 0.08; "thickness" := 0.015;
          "safety_margins" := 0.2 ]} : gmap string R) !! "outer_diam" = Some vo
    ∧ ({[ "inner_diam" := 0.05; "outer_diam" := 0.08; "thickness" := 0.015;
          "safety_margins" := 0.2 ]} : gmap string R) !! "thickness" = Some vt
    ∧ ({[ "inner_diam" := 0.05; "outer_diam" := 0.08; "thickness" := 0.015;
          "safety_margins" := 0.2 ]} : gmap string R) !! "safety_margins"
      = Some vs
    ∧ call_optimize
        (λ _, (true, {[ "inner_diam" := 0.05; "outer_diam" := 0.08;
                        "thickness" := 0.015; "safety_margins" := 0.2 ]}))
        (TubeOptimization_init 10e3 5e3) [0.05; 3] []
      = Returns (converged,
                 (py_round (f_mul vi (f_lit 1000)) 3,
                  py_round (f_mul vo (f_lit 1000)) 3,
                  py_round (f_mul vt (f_lit 1000)) 3, py_round vs 4))
    ∧ (converged = true ↔ true = false)
    ∧ (true = true → converged = false).
Proof.
  apply (optimize_reports_convergence
           (λ _, (true, {[ "inner_diam" := 0.05; "outer_diam" := 0.08;
                           "thickness" := 0.015; "safety_margins" := 0.2 ]}))
           (TubeOptimization_init 10e3 5e3) 0.05 3 true
           {[ "inner_diam" := 0.05; "outer_diam" := 0.08;
              "thickness" := 0.015; "safety_margins" := 0.2 ]});
    [reflexivity|].
  intros name Hn.
  repeat (apply elem_of_cons in Hn as [->|Hn]; [eexists; reflexivity|]).
  by apply elem_of_nil in Hn.
Defined.

(** What [setup] declares, with the literals read as reals. *)
Lemma setup_real (comp : _TubeComponent R) :
  setup comp empty_system
  = {| var_inputs :=
         [ {| in_name := "inner_diam"; in_val := 0.060; in_units := "m" |};
           {| in_name := "outer_diam"; in_val := 0.100; in_units := "m" |} ];
       design_vars :=
         [ {| dv_name := "inner_diam";
              dv_lower := Some 0.005; dv_upper := Some 0.5 |};
           {| dv_name := "outer_diam";
              dv_lower := Some 0.01; dv_upper := Some 0.6 |} ];
       var_outputs :=
         [ {| out_name := "area"; out_units := "m**2" |};
           {| out_name := "thickness"; out_units := "m" |};
           {| out_name := "safety_margins"; out_units := "unitless" |};
           {| out_name := "diam_over_thickness"; out_units := "unitless" |} ];
       constraints :=
         [ {| con_name := "thickness";
              con_lower := Some (_thickness_lower_bound comp / 1000);
              con_upper := None |};
           {| con_name := "safety_margins";
              con_lower := Some (_safety_margin_lower_bound comp);
              con_upper := None |};
           {| con_name := "diam_over_thickness";
              con_lower := Some 2; con_upper := Some 25 |} ];
       objectives := ["area"] |}.
Proof.
  assert (L1 : f_lit 0.060 = 0.060) by lit_tac.
  assert (L2 : f_lit 0.100 = 0.100) by lit_tac.
  assert (L3 : f_lit 0.005 = 0.005) by lit_tac.
  assert (L4 : f_lit 0.5 = 0.5) by lit_tac.
  assert (L5 : f_lit 0.01 = 0.01) by lit_tac.
  assert (L6 : f_lit 0.6 = 0.6) by lit_tac.
  assert (L7 : f_lit 25 = 25) by lit_tac.
  rewrite setup_eq, L1, L2, L3, L4, L5, L6, L7, lit_2, lit_1000.
  reflexivity.
Qed.

(** The initial values are the declared [val]s of the two inputs. *)
Lemma values_Problem_setup (comp : _TubeComponent R) :
  values (Problem_setup comp)
  = {[ "inner_diam" := 0.060; "outer_diam" := 0.100 ]}.
Proof.
  unfold Problem_setup. cbn [values]. rewrite setup_real.
  cbn [var_inputs map in_name in_val list_to_map foldr uncurry].
  by rewrite insert_empty.
Qed.

(** C3: for every load case and every thresholds [m] and [t_mm], the
    problem [optimize] hands to the optimizer has the design variables
    [inner_diam] in [0.005, 0.5] and [outer_diam] in [0.01, 0.6] (both
    declared in metres), exactly the three constraints
    [thickness >= t_mm/1000], [safety_margins >= m] and
    [2 <= diam_over_thickness <= 25], the single objective [area], and the
    initial values [inner_diam = 0.060], [outer_diam = 0.100]; and [optimize]
    consults the optimizer on that problem only. *)
Theorem optimize_problem_setup (self : TubeOptimization R) (m t_mm : R) :
  let problem := problem_of self m t_mm in
  var_inputs (model problem)
  = [ {| in_name := "inner_diam"; in_val := 0.060; in_units := "m" |};
      {| in_name := "outer_diam"; in_val := 0.100; in_units := "m" |} ]
  ∧ design_vars (model problem)
    = [ {| dv_name := "inner_diam";
           dv_lower := Some 0.005; dv_upper := Some 0.5 |};
        {| dv_name := "outer_diam";
           dv_lower := Some 0.01; dv_upper := Some 0.6 |} ]
  ∧ constraints (model problem)
    = [ {| con_name := "thickness";
           con_lower := Some (t_mm / 1000); con_upper := None |};
        {| con_name := "safety_margins";
           con_lower := Some m; con_upper := None |};
        {| con_name := "diam_over_thickness";
           con_lower := Some 2; con_upper := Some 25 |} ]
  ∧ objectives (model problem) = ["area"]
  ∧ values problem = {[ "inner_diam" := 0.060; "outer_diam" := 0.100 ]}
  ∧ ∀ run_driver1 run_driver2 : Problem R → bool * gmap string R,
      run_driver1 problem = run_driver2 problem →
      optimize run_driver1 self m t_mm = optimize run_driver2 self m t_mm.
Proof.
  cbv zeta. unfold problem_of.
  rewrite values_Problem_setup.
  change (model (Problem_setup ?c)) with (setup c empty_system).
  rewrite setup_real. cbn [var_inputs design_vars constraints objectives].
  cbn [_thickness_lower_bound _safety_margin_lower_bound].
  repeat (split; [reflexivity|]).
  intros rd1 rd2 Hrd. unfold optimize. by rewrite Hrd.
Qed.

(** C6: the three lengths [optimize] returns are the optimizer's final
    values, converted from metres to millimetres and rounded to 3 decimal
    places, and the safety margin it returns is the final value rounded to
    4 decimal places. *)
Theorem optimize_rounds_result
    (run_driver : Problem R → bool * gmap string R)
    (self : TubeOptimization R) (msm mt : R) flag vals vi vo vt vs :
  run_driver (problem_of self msm mt) = (flag, vals) →
  vals !! "inner_diam" = Some vi → vals !! "outer_diam" = Some vo →
  vals !! "thickness" = Some vt → vals !! "safety_margins" = Some vs →
  ∃ inner_diam outer_diam thickness safety_margins,
    optimize run_driver self msm mt
    = Some (negb flag, (inner_diam, outer_diam, thickness, safety_margins))
    ∧ spec_rounded_to 3 (vi * 1000) inner_diam
    ∧ spec_rounded_to 3 (vo * 1000) outer_diam
    ∧ spec_rounded_to 3 (vt * 1000) thickness
    ∧ spec_rounded_to 4 vs safety_margins.
Proof.
  intros Hrun Hi Ho Ht Hs.
  do 4 eexists. split.
  - exact (optimize_eq run_driver _ _ _ _ _ _ _ _ _ Hrun Hi Ho Ht Hs).
  - to_real. rewrite lit_1000.
    repeat split; first [apply (round_ndigits_spec _ 3) | apply (round_ndigits_spec _ 4)].
Qed.

Lemma optimize_rounds_result_witness :
  ∃ inner_diam outer_diam thickness safety_margins,
    optimize
      (λ _, (false, {[ "inner_diam" := 0.05; "outer_diam" := 0.08;
                       "thickness" := 0.015; "safety_margins" := 0.2 ]}))
      (TubeOptimization_init 10e3 5e3) 0.05 3
    = Some (negb false, (inner_diam, outer_diam, thickness, safety_margins))
    ∧ spec_rounded_to 3 (0.05 * 1000) inner_diam
    ∧ spec_rounded_to 3 (0.08 * 1000) outer_diam
    ∧ spec_rounded_to 3 (0.015 * 1000) thickness
    ∧ spec_rounded_to 4 0.2 safety_margins.
Proof.
  apply (optimize_rounds_result
           (λ _, (false, {[ "inner_diam" := 0.05; "outer_diam" := 0.08;
                            "thickness" := 0.015; "safety_margins" := 0.2 ]}))
           (TubeOptimization_init 10e3 5e3) 0.05 3 false
           {[ "inner_diam" := 0.05; "outer_diam" := 0.08;
              "thickness" := 0.015; "safety_margins" := 0.2 ]}
           0.05 0.08 0.015 0.2); reflexivity.
Defined.

End RealFacts.

(** ** Degenerate geometry, in binary64 *)

Section Binary64Facts.
Import Binary64.
Variable libm_pow : spec_float → nat → spec_float.
Variable np_round : spec_float → Z → spec_float.
Implicit Types (self : _TubeComponent spec_float).
Implicit Types (inputs outputs : gmap string spec_float).

Lemma b64_lit_2 : b64_lit 2 = S754_finite false 4503599627370496 (-51).
Proof. vm_compute. reflexivity. Qed.

(** Subtracting a finite value from itself gives zero. *)
Lemma SFsub_diag_finite s m e :
  SFsub prec emax (S754_finite s m e) (S754_finite s m e) = S754_zero false.
Proof.
  unfold SFsub. cbv zeta. by rewrite Z.sub_diag.
Qed.

(** Two values that compare equal are the same infinity, the same finite
    value, or two zeros. *)
Lemma SFeqb_true_inv x y :
  SFeqb x y = true →
  (∃ s, x = S754_infinity s ∧ y = S754_infinity s)
  ∨ (∃ s1 s2, x = S754_zero s1 ∧ y = S754_zero s2)
  ∨ (∃ s m e, x = S754_finite s m e ∧ y = S754_finite s m e).
Proof.
  unfold SFeqb, SFcompare.
  destruct x as [s1| s1 | |s1 m1 e1], y as [s2|s2| |s2 m2 e2];
    try destruct s1; try destruct s2; try discriminate; intros Heq.
  all: try (left; eexists; split; reflexivity).
  all: try (right; left; do 2 eexists; split; reflexivity).
  all: destruct (Z.compare_spec e1 e2) as [->| |]; try discriminate.
  all: destruct (Pos.compare_cont Eq m1 m2) eqn:Hm; try discriminate.
  all: apply Pos.compare_eq in Hm as ->.
  all: right; right; do 3 eexists; split; reflexivity.
Qed.

(** At [outer_diam == inner_diam] the thickness is a zero or NaN, and the
    quotient [outer_diam / thickness] is an infinity or NaN. *)
Lemma diam_over_thickness_not_finite self i o :
  SFeqb o i = true →
  is_finite (diam_over_thickness (compute_locals (H := B64Ops libm_pow np_round) self i o)) = false.
Proof.
  intros Heq. unfold compute_locals. cbn [diam_over_thickness].
  cbn [f_div f_sub f_lit B64Ops]. rewrite b64_lit_2.
  apply SFeqb_true_inv in Heq
    as [(s & -> & ->)|[(s1 & s2 & -> & ->)|(s & m & e & -> & ->)]].
  - by destruct s.
  - by destruct s1, s2.
  - by rewrite SFsub_diag_finite.
Qed.

(** C5: for inputs with [outer_diam <= inner_diam], [compute] raises nothing:
    it returns, with all four outputs stored, the thickness and the ratio
    being what the subtraction and the two divisions produce.  At
    [outer_diam == inner_diam] the thickness is zero (or NaN) and the ratio
    [outer_diam / thickness] comes out as an infinity or NaN, not an
    error. *)
Theorem compute_degenerate_propagates self inputs outputs
    inner_diam outer_diam :
  inputs !! "inner_diam" = Some inner_diam →
  inputs !! "outer_diam" = Some outer_diam →
  SFleb outer_diam inner_diam = true →
  ∃ outs,
    compute (H := B64Ops libm_pow np_round) self inputs outputs = Some outs
    ∧ is_Some (outs !! "area")
    ∧ is_Some (outs !! "safety_margins")
    ∧ outs !! "thickness"
      = Some (SFdiv prec emax (SFsub prec emax outer_diam inner_diam)
                (b64_lit 2))
    ∧ outs !! "diam_over_thickness"
      = Some (SFdiv prec emax outer_diam
                (SFdiv prec emax (SFsub prec emax outer_diam inner_diam)
                   (b64_lit 2)))
    ∧ (SFeqb outer_diam inner_diam = true →
       ∃ d, outs !! "diam_over_thickness" = Some d ∧ is_finite d = false).
Proof.
  intros Hi Ho _.
  destruct (compute_outputs (H := B64Ops libm_pow np_round)
              self inputs outputs _ _ Hi Ho)
    as (outs & Hc & Ha & Ht & Hd & Hs).
  exists outs. split; [exact Hc|].
  split; [by rewrite Ha|]. split; [by rewrite Hs|].
  split; [exact Ht|]. split; [exact Hd|].
  intros Heq. eexists. split; [exact Hd|].
  by apply diam_over_thickness_not_finite.
Qed.

(** Equal diameters: the ratio is [+inf]. *)
Example equal_diameters_give_infinity self :
  diam_over_thickness
    (compute_locals (H := B64Ops libm_pow np_round) self
       (b64_lit 0.1) (b64_lit 0.1))
  = S754_infinity false.
Proof. vm_compute. reflexivity. Qed.

(** Both diameters zero: the ratio is NaN. *)
Example zero_diameters_give_nan self :
  diam_over_thickness
    (compute_locals (H := B64Ops libm_pow np_round) self
       (S754_zero false) (S754_zero false))
  = S754_nan.
Proof. vm_compute. reflexivity. Qed.

(** Outer diameter 0.06 inside inner diameter 0.1: the ratio is negative,
    close to -3. *)
Example swapped_diameters_give_negative self :
  diam_over_thickness
    (compute_locals (H := B64Ops libm_pow np_round) self
       (b64_lit 0.1) (b64_lit 0.06))
  = S754_finite true 6755399441055742 (-51).
Proof. vm_compute. reflexivity. Qed.

End Binary64Facts.

Lemma compute_degenerate_propagates_witness :
  ∃ outs,
    compute (H := Binary64.B64Ops (λ x _, x) (λ x _, x))
      (TubeComponent_init (Binary64.b64_lit 10e3) (Binary64.b64_lit 5e3)
         (Binary64.b64_lit 3) (Binary64.b64_lit 0.05))
      {[ "inner_diam" := Binary64.b64_lit 0.1;
         "outer_diam" := Binary64.b64_lit 0.1 ]} ∅ = Some outs
    ∧ is_Some (outs !! "area")
    ∧ is_Some (outs !! "safety_margins")
    ∧ outs !! "thickness"
      = Some (SFdiv Binary64.prec Binary64.emax
                (SFsub Binary64.prec Binary64.emax
                   (Binary64.b64_lit 0.1) (Binary64.b64_lit 0.1))
                (Binary64.b64_lit 2))
    ∧ outs !! "diam_over_thickness"
      = Some (SFdiv Binary64.prec Binary64.emax (Binary64.b64_lit 0.1)
                (SFdiv Binary64.prec Binary64.emax
                   (SFsub Binary64.prec Binary64.emax
                      (Binary64.b64_lit 0.1) (Binary64.b64_lit 0.1))
                   (Binary64.b64_lit 2)))
    ∧ (SFeqb (Binary64.b64_lit 0.1) (Binary64.b64_lit 0.1) = true →
       ∃ d, outs !! "diam_over_thickness" = Some d
            ∧ Binary64.is_finite d = false).
Proof.
  apply (compute_degenerate_propagates (λ x _, x) (λ x _, x)
           (TubeComponent_init (Binary64.b64_lit 10e3) (Binary64.b64_lit 5e3)
              (Binary64.b64_lit 3) (Binary64.b64_lit 0.05))
           {[ "inner_diam" := Binary64.b64_lit 0.1;
              "outer_diam" := Binary64.b64_lit 0.1 ]} ∅
           (Binary64.b64_lit 0.1) (Binary64.b64_lit 0.1));
    [reflexivity | reflexivity | vm_compute; reflexivity].
Defined.

(** * Further properties *)

(** ** [compute] and [setup] together, for any arithmetic *)

Section ComputeSetupFacts.
Context {T : Type} `{Float64 T}.
Implicit Types (self : _TubeComponent T) (inputs outputs : gmap string T).

Lemma compute_is_Some self inputs outputs outs :
  compute self inputs outputs = Some outs →
  ∃ i o, inputs !! "inner_diam" = Some i ∧ inputs !! "outer_diam" = Some o.
Proof.
  intros Hc.
  destruct (inputs !! "inner_diam") as [i|] eqn:Hi;
    [|by rewrite compute_None_inner in Hc].
  destruct (inputs !! "outer_diam") as [o|] eqn:Ho;
    [|by rewrite compute_None_outer in Hc].
  by exists i, o.
Qed.

(** X1: [compute] writes under its four output names only; every other
    entry of the outputs mapping is what it was before the call. *)
Theorem compute_frame self inputs outputs outs k :
  compute self inputs outputs = Some outs →
  k ∉ ["area"; "thickness"; "safety_margins"; "diam_over_thickness"] →
  outs !! k = outputs !! k.
Proof.
  intros Hc Hk.
  destruct (compute_is_Some _ _ _ _ Hc) as (i & o & Hi & Ho).
  rewrite (compute_Some _ _ _ _ _ Hi Ho) in Hc. injection Hc as <-.
  rewrite !lookup_insert_ne; [done|..]; intros Heq; apply Hk;
    rewrite <- Heq; set_solver.
Qed.

(** X2: running [compute] again on the same inputs, over the outputs it
    has just produced, changes nothing. *)
Theorem compute_twice self inputs outputs outs :
  compute self inputs outputs = Some outs →
  compute self inputs outs = Some outs.
Proof.
  intros Hc.
  destruct (compute_is_Some _ _ _ _ Hc) as (i & o & Hi & Ho).
  destruct (compute_outputs self inputs outputs i o Hi Ho)
    as (outs' & Hc' & Ha & Ht & Hd & Hs).
  rewrite Hc in Hc'. injection Hc' as <-.
  rewrite (compute_Some _ _ _ _ _ Hi Ho). f_equal.
  by rewrite (insert_id _ _ _ Ha), (insert_id _ _ _ Ht),
       (insert_id _ _ _ Hs), (insert_id _ _ _ Hd).
Qed.

(** X3: [compute] raises exactly when one of the inputs [setup] declares
    has no value. *)
Theorem compute_raises_iff self inputs outputs :
  compute self inputs outputs = None
  ↔ ∃ d, d ∈ var_inputs (setup self empty_system)
         ∧ inputs !! in_name d = None.
Proof.
  rewrite setup_eq. cbn [var_inputs]. split.
  - intros Hc.
    destruct (inputs !! "inner_diam") as [i|] eqn:Hi.
    + destruct (inputs !! "outer_diam") as [o|] eqn:Ho.
      * by rewrite (compute_Some _ _ _ _ _ Hi Ho) in Hc.
      * eexists. split; [apply list_elem_of_further, list_elem_of_here|done].
    + eexists. split; [apply list_elem_of_here|done].
  - intros (d & Hd & Hn).
    apply elem_of_cons in Hd as [->|Hd]; [by apply compute_None_inner|].
    apply elem_of_cons in Hd as [->|Hd]; [by apply compute_None_outer|].
    by apply elem_of_nil in Hd.
Qed.

(** X4: started on an empty mapping, [compute] leaves a value under every
    output name [setup] declares and under no other name. *)
Theorem compute_stores_declared_outputs self inputs outs k :
  compute self inputs ∅ = Some outs →
  is_Some (outs !! k)
  ↔ k ∈ map out_name (var_outputs (setup self empty_system)).
Proof.
  intros Hc. rewrite setup_eq. cbn [var_outputs map out_name].
  destruct (compute_is_Some _ _ _ _ Hc) as (i & o & Hi & Ho).
  destruct (compute_outputs self inputs ∅ i o Hi Ho)
    as (outs' & Hc' & Ha & Ht & Hd & Hs).
  rewrite Hc in Hc'. injection Hc' as <-.
  split.
  - intros Hk.
    destruct (decide (k ∈ ["area"; "thickness"; "safety_margins";
                           "diam_over_thickness"])) as [Hin|Hout];
      [done|].
    rewrite (compute_Some _ _ _ _ _ Hi Ho) in Hc. injection Hc as <-.
    rewrite !lookup_insert_ne, lookup_empty in Hk;
      [by destruct Hk|..]; intros Heq; apply Hout; rewrite <- Heq; set_solver.
  - intros Hk.
    repeat (apply elem_of_cons in Hk as [->|Hk]; [by eexists|]).
    by apply elem_of_nil in Hk.
Qed.

(** X5: the declarations of [setup] are consistent: every design variable
    is a declared input, every constraint and the objective are declared
    outputs, and no name is declared twice. *)
Theorem setup_names_declared self :
  let sys := setup self empty_system in
  (∀ d, d ∈ design_vars sys → dv_name d ∈ map in_name (var_inputs sys))
  ∧ (∀ c, c ∈ constraints sys
          → con_name c ∈ map out_name (var_outputs sys))
  ∧ (∀ o, o ∈ objectives sys → o ∈ map out_name (var_outputs sys))
  ∧ NoDup (map in_name (var_inputs sys) ++ map out_name (var_outputs sys)).
Proof.
  cbv zeta. rewrite setup_eq.
  cbn [design_vars constraints objectives var_inputs var_outputs map app
       in_name out_name].
  split; [|split; [|split]].
  - intros d Hd.
    repeat (apply elem_of_cons in Hd as [->|Hd]; [set_solver|]).
    by apply elem_of_nil in Hd.
  - intros c Hc.
    repeat (apply elem_of_cons in Hc as [->|Hc]; [set_solver|]).
    by apply elem_of_nil in Hc.
  - intros o Ho.
    repeat (apply elem_of_cons in Ho as [->|Ho]; [set_solver|]).
    by apply elem_of_nil in Ho.
  - repeat (apply NoDup_cons; split; [set_solver|]). apply NoDup_nil_2.
Qed.

End ComputeSetupFacts.

(** ** The section properties and the margin, over the reals *)

Section GeometryFacts.
Import RealModel.
Local Open Scope R_scope.
Implicit Types (self : _TubeComponent R) (inputs outputs : gmap string R).

Lemma axial_stress_eq self i o :
  axial_stress (compute_locals self i o)
  = _axial_force self / area (compute_locals self i o).
Proof. reflexivity. Qed.

Lemma bending_stress_eq self i o :
  bending_stress (compute_locals self i o)
  = _bending_moment self * (o / 2)
    / moment_of_inertia (compute_locals self i o).
Proof.
  rewrite moment_of_inertia_eq. unfold compute_locals.
  cbn [bending_stress].
  change (@f_mul R RealOps) with Rmult. change (@f_div R RealOps) with Rdiv.
  change (@f_sub R RealOps) with Rminus. change (@f_pow R RealOps) with pow.
  change (@np_pi R RealOps) with PI. by rewrite lit_2, lit_4.
Qed.

Lemma tensile_stress_stresses self i o :
  tensile_stress (compute_locals self i o)
  = sqrt ((axial_stress (compute_locals self i o)
           + bending_stress (compute_locals self i o)) ^ 2 + 0.001).
Proof.
  rewrite tensile_stress_eq, axial_stress_eq, bending_stress_eq,
    area_eq, moment_of_inertia_eq. reflexivity.
Qed.

Lemma tensile_stress_pos self i o :
  0 < tensile_stress (compute_locals self i o).
Proof.
  pose proof sqrt_eps_pos. pose proof (tensile_stress_ge self i o). lra.
Qed.

(** X6: the outputs are tied to each other and to the inputs:
    [outer_diam = inner_diam + 2*thickness], the area is
    [pi * thickness * (inner_diam + thickness)] (wall thickness times mean
    circumference), and the moment of inertia is
    [area * (outer_diam^2 + inner_diam^2) / 16]. *)
Theorem section_identities self i o :
  o = i + 2 * thickness (compute_locals self i o)
  ∧ area (compute_locals self i o)
    = PI * thickness (compute_locals self i o)
      * (i + thickness (compute_locals self i o))
  ∧ moment_of_inertia (compute_locals self i o)
    = area (compute_locals self i o) * (o ^ 2 + i ^ 2) / 16.
Proof.
  rewrite thickness_eq, area_eq, moment_of_inertia_eq.
  repeat split; field.
Qed.

(** X7: whenever [0 < inner_diam < outer_diam], the ratio
    [diam_over_thickness] is above 2 (so the lower bound of its constraint
    never binds) and [diam_over_thickness * thickness] gives back
    [outer_diam]. *)
Theorem diam_over_thickness_above_2 self i o :
  0 < i < o →
  2 < diam_over_thickness (compute_locals self i o)
  ∧ diam_over_thickness (compute_locals self i o)
    * thickness (compute_locals self i o) = o.
Proof.
  intros [Hi Hio]. rewrite diam_over_thickness_eq, thickness_eq.
  assert (Ht : 0 < (o - i) / 2) by lra.
  assert (Heq : o / ((o - i) / 2) * ((o - i) / 2) = o) by (field; lra).
  split; [|exact Heq].
  apply (Rmult_lt_reg_r ((o - i) / 2)); [exact Ht|]. lra.
Qed.

Lemma diam_over_thickness_above_2_witness :
  2 < diam_over_thickness
        (compute_locals (TubeComponent_init 10e3 5e3 3 0.05) 0.06 0.1)
  ∧ diam_over_thickness
      (compute_locals (TubeComponent_init 10e3 5e3 3 0.05) 0.06 0.1)
    * thickness (compute_locals (TubeComponent_init 10e3 5e3 3 0.05) 0.06 0.1)
    = 0.1.
Proof.
  apply (diam_over_thickness_above_2
           (TubeComponent_init 10e3 5e3 3 0.05) 0.06 0.1); lra.
Defined.

(** X8: for [inner_diam < outer_diam], the upper bound 25 on
    [diam_over_thickness] holds exactly when
    [25 * inner_diam <= 23 * outer_diam], that is when the wall is at
    least 4% of the outer diameter. *)
Theorem diam_over_thickness_le_25 self i o :
  i < o →
  diam_over_thickness (compute_locals self i o) <= 25
  ↔ 25 * i <= 23 * o.
Proof.
  intros Hio. rewrite diam_over_thickness_eq.
  assert (Ht : 0 < (o - i) / 2) by lra.
  assert (Heq : o / ((o - i) / 2) * ((o - i) / 2) = o) by (field; lra).
  split; intros Hle.
  - assert (o / ((o - i) / 2) * ((o - i) / 2) <= 25 * ((o - i) / 2))
      by (apply Rmult_le_compat_r; lra).
    lra.
  - apply (Rmult_le_reg_r ((o - i) / 2)); [exact Ht|]. lra.
Qed.

Lemma diam_over_thickness_le_25_witness :
  diam_over_thickness
    (compute_locals (TubeComponent_init 10e3 5e3 3 0.05) 0.06 0.1) <= 25
  ↔ 25 * 0.06 <= 23 * 0.1.
Proof.
  apply (diam_over_thickness_le_25
           (TubeComponent_init 10e3 5e3 3 0.05) 0.06 0.1); lra.
Defined.

Lemma area_pos self i o :
  0 <= i < o → 0 < area (compute_locals self i o).
Proof.
  intros [Hi Hio]. rewrite area_eq. pose proof PI_RGT_0 as Hpi.
  assert (H2 : 0 < o ^ 2 - i ^ 2) by nra.
  apply Rmult_lt_0_compat; lra.
Qed.

Lemma inertia_pos self i o :
  0 <= i < o → 0 < moment_of_inertia (compute_locals self i o).
Proof.
  intros [Hi Hio]. rewrite moment_of_inertia_eq. pose proof PI_RGT_0 as Hpi.
  assert (H2 : 0 < o ^ 2 - i ^ 2) by nra.
  apply Rmult_lt_0_compat; [lra|].
  replace ((o / 2) ^ 4 - (i / 2) ^ 4)
    with ((o ^ 2 - i ^ 2) * (o ^ 2 + i ^ 2) / 16) by field.
  assert (0 < o ^ 2 + i ^ 2) by nra.
  assert (0 < (o ^ 2 - i ^ 2) * (o ^ 2 + i ^ 2))
    by (apply Rmult_lt_0_compat; lra).
  lra.
Qed.

(** X9: with [0 <= inner_diam < outer_diam] the thickness, the area and
    the moment of inertia are positive, so the ratio and both stress
    quotients divide by a nonzero number. *)
Theorem area_inertia_positive self i o :
  0 <= i < o →
  0 < thickness (compute_locals self i o)
  ∧ 0 < area (compute_locals self i o)
  ∧ 0 < moment_of_inertia (compute_locals self i o).
Proof.
  intros Hio. split; [rewrite thickness_eq; lra|].
  split; [by apply area_pos|by apply inertia_pos].
Qed.

Lemma area_inertia_positive_witness :
  0 < thickness (compute_locals (TubeComponent_init 10e3 5e3 3 0.05) 0.06 0.1)
  ∧ 0 < area (compute_locals (TubeComponent_init 10e3 5e3 3 0.05) 0.06 0.1)
  ∧ 0 < moment_of_inertia
          (compute_locals (TubeComponent_init 10e3 5e3 3 0.05) 0.06 0.1).
Proof.
  apply (area_inertia_positive
           (TubeComponent_init 10e3 5e3 3 0.05) 0.06 0.1); lra.
Defined.

End GeometryFacts.

(** ** The safety margin against the loads *)

Section MarginFacts.
Import RealModel.
Local Open Scope R_scope.
Implicit Types (self : _TubeComponent R).

Lemma R_350e6_pos : 0 < 350e6.
Proof. rewrite R_350e6. lra. Qed.

(** X10: the margin reaches a level [m] exactly when the combined stress
    times [1 + m] stays within the yield strength; in particular the margin
    is non-negative exactly when the combined stress does not exceed
    [350e6]. *)
Theorem safety_margin_ge_iff self i o m :
  (m <= safety_margin (compute_locals self i o)
   ↔ (1 + m) * tensile_stress (compute_locals self i o) <= 350e6)
  ∧ (0 <= safety_margin (compute_locals self i o)
     ↔ tensile_stress (compute_locals self i o) <= 350e6).
Proof.
  assert (Hgen : ∀ m',
    m' <= safety_margin (compute_locals self i o)
    ↔ (1 + m') * tensile_stress (compute_locals self i o) <= 350e6).
  { intros m'. rewrite safety_margin_eq.
    pose proof (tensile_stress_pos self i o) as Hts.
    set (ts := tensile_stress (compute_locals self i o)) in *.
    assert (Heq : 350e6 / ts * ts = 350e6) by (field; lra).
    split; intros Hle.
    - assert ((1 + m') * ts <= 350e6 / ts * ts)
        by (apply Rmult_le_compat_r; lra).
      lra.
    - assert (1 + m' <= 350e6 / ts); [|lra].
      apply (Rmult_le_reg_r ts); [exact Hts|]. lra. }
  split; [apply Hgen|].
  rewrite (Hgen 0). by rewrite Rplus_0_r, Rmult_1_l.
Qed.

(** X11: reversing the sign of both loads changes neither the combined
    stress nor the margin: tension and compression are rated alike. *)
Theorem safety_margin_load_sign (F M t m : R) i o :
  tensile_stress (compute_locals (TubeComponent_init (- F) (- M) t m) i o)
  = tensile_stress (compute_locals (TubeComponent_init F M t m) i o)
  ∧ safety_margin (compute_locals (TubeComponent_init (- F) (- M) t m) i o)
    = safety_margin (compute_locals (TubeComponent_init F M t m) i o).
Proof.
  assert (Hts :
    tensile_stress (compute_locals (TubeComponent_init (- F) (- M) t m) i o)
    = tensile_stress (compute_locals (TubeComponent_init F M t m) i o)).
  { rewrite !tensile_stress_eq. cbn [_axial_force _bending_moment].
    f_equal. f_equal. unfold Rdiv. ring. }
  split; [exact Hts|]. by rewrite !safety_margin_eq, Hts.
Qed.

(** X12: the margin sits at its ceiling [350e6 / sqrt 0.001 - 1] exactly
    when the axial and the bending stress cancel. *)
Theorem safety_margin_ceiling_iff self i o :
  safety_margin (compute_locals self i o) = 350e6 / sqrt 0.001 - 1
  ↔ axial_stress (compute_locals self i o)
    + bending_stress (compute_locals self i o) = 0.
Proof.
  rewrite safety_margin_eq, tensile_stress_stresses.
  set (x := axial_stress _ + bending_stress _).
  pose proof sqrt_eps_pos as H0. pose proof R_350e6_pos as Hy.
  assert (Hx2 : 0 <= x ^ 2) by apply pow2_ge_0.
  assert (Hs : 0 < sqrt (x ^ 2 + 0.001)) by (apply sqrt_lt_R0; lra).
  split.
  - intros Heq.
    assert (Hinv : / sqrt (x ^ 2 + 0.001) = / sqrt 0.001).
    { apply (Rmult_eq_reg_l 350e6); [|lra]. unfold Rdiv in Heq. lra. }
    apply Rinv_eq_reg in Hinv.
    apply sqrt_inj in Hinv; [|lra..].
    assert (x ^ 2 = 0) by lra. nra.
  - intros ->. do 3 f_equal. lra.
Qed.

(** X13: scaling both diameters by [k <> 0] scales the thickness by [k]
    and the area by [k^2], and, when the diameters differ, leaves
    [diam_over_thickness] as it was. *)
Theorem compute_scaling self i o k :
  k ≠ 0 → i ≠ o →
  thickness (compute_locals self (k * i) (k * o))
  = k * thickness (compute_locals self i o)
  ∧ area (compute_locals self (k * i) (k * o))
    = k ^ 2 * area (compute_locals self i o)
  ∧ diam_over_thickness (compute_locals self (k * i) (k * o))
    = diam_over_thickness (compute_locals self i o).
Proof.
  intros Hk Hio. rewrite !thickness_eq, !area_eq, !diam_over_thickness_eq.
  split; [field|]. split; [field|].
  assert (Hd : o - i ≠ 0) by (intros ?; apply Hio; lra).
  field. split; [exact Hd|].
  replace (k * o - k * i) with (k * (o - i)) by ring.
  by apply Rmult_integral_contrapositive_currified.
Qed.

Lemma compute_scaling_witness :
  thickness (compute_locals (TubeComponent_init 10e3 5e3 3 0.05)
               (2 * 0.06) (2 * 0.1))
  = 2 * thickness (compute_locals (TubeComponent_init 10e3 5e3 3 0.05)
                     0.06 0.1)
  ∧ area (compute_locals (TubeComponent_init 10e3 5e3 3 0.05)
            (2 * 0.06) (2 * 0.1))
    = 2 ^ 2 * area (compute_locals (TubeComponent_init 10e3 5e3 3 0.05)
                      0.06 0.1)
  ∧ diam_over_thickness (compute_locals (TubeComponent_init 10e3 5e3 3 0.05)
                           (2 * 0.06) (2 * 0.1))
    = diam_over_thickness (compute_locals (TubeComponent_init 10e3 5e3 3 0.05)
                             0.06 0.1).
Proof.
  apply (compute_scaling (TubeComponent_init 10e3 5e3 3 0.05) 0.06 0.1 2);
    lra.
Defined.

(** X14: with [outer_diam] fixed, a larger positive inner diameter gives a
    strictly smaller area and a strictly smaller thickness. *)
Theorem area_strictly_decreasing_inner self i1 i2 o :
  0 < i1 < i2 →
  area (compute_locals self i2 o) < area (compute_locals self i1 o)
  ∧ thickness (compute_locals self i2 o) < thickness (compute_locals self i1 o).
Proof.
  intros [H1 H12]. rewrite !area_eq, !thickness_eq.
  pose proof PI_RGT_0 as Hpi. split; [|lra].
  apply Rmult_lt_compat_l; [lra|]. nra.
Qed.

Lemma area_strictly_decreasing_inner_witness :
  area (compute_locals (TubeComponent_init 10e3 5e3 3 0.05) 0.08 0.1)
  < area (compute_locals (TubeComponent_init 10e3 5e3 3 0.05) 0.06 0.1)
  ∧ thickness (compute_locals (TubeComponent_init 10e3 5e3 3 0.05) 0.08 0.1)
    < thickness (compute_locals (TubeComponent_init 10e3 5e3 3 0.05) 0.06 0.1).
Proof.
  apply (area_strictly_decreasing_inner
           (TubeComponent_init 10e3 5e3 3 0.05) 0.06 0.08 0.1); lra.
Defined.

(** X15: for loads that do not oppose each other ([0 <= F1 <= F2] and
    [0 <= M1 <= M2]) on a tube with [0 <= inner_diam < outer_diam], the
    heavier load case has the larger combined stress and the smaller
    margin. *)
Theorem safety_margin_antitone_loads (F1 F2 M1 M2 t m : R) i o :
  0 <= i < o → 0 <= F1 <= F2 → 0 <= M1 <= M2 →
  tensile_stress (compute_locals (TubeComponent_init F1 M1 t m) i o)
  <= tensile_stress (compute_locals (TubeComponent_init F2 M2 t m) i o)
  ∧ safety_margin (compute_locals (TubeComponent_init F2 M2 t m) i o)
    <= safety_margin (compute_locals (TubeComponent_init F1 M1 t m) i o).
Proof.
  intros Hio [HF1 HF12] [HM1 HM12].
  assert (Hts :
    tensile_stress (compute_locals (TubeComponent_init F1 M1 t m) i o)
    <= tensile_stress (compute_locals (TubeComponent_init F2 M2 t m) i o)).
  { rewrite !tensile_stress_stresses, !axial_stress_eq, !bending_stress_eq.
    cbn [_axial_force _bending_moment].
    pose proof (area_pos (TubeComponent_init F1 M1 t m) i o Hio) as HA.
    pose proof (inertia_pos (TubeComponent_init F1 M1 t m) i o Hio) as HI.
    rewrite area_eq in HA. rewrite moment_of_inertia_eq in HI.
    rewrite !area_eq, !moment_of_inertia_eq.
    set (A := PI / 4 * (o ^ 2 - i ^ 2)) in *.
    set (I := PI / 4 * ((o / 2) ^ 4 - (i / 2) ^ 4)) in *.
    assert (HiA : 0 < / A) by by apply Rinv_0_lt_compat.
    assert (HiI : 0 < / I) by by apply Rinv_0_lt_compat.
    assert (Hr : 0 < o / 2) by lra.
    assert (Ha1 : 0 <= F1 / A) by (unfold Rdiv; nra).
    assert (Ha12 : F1 / A <= F2 / A)
      by (unfold Rdiv; apply Rmult_le_compat_r; lra).
    assert (Hb1 : 0 <= M1 * (o / 2) / I).
    { unfold Rdiv at 1. apply Rmult_le_pos; [nra|lra]. }
    assert (Hb12 : M1 * (o / 2) / I <= M2 * (o / 2) / I).
    { unfold Rdiv at 1 3. apply Rmult_le_compat_r; [lra|].
      apply Rmult_le_compat_r; lra. }
    apply sqrt_le_1_alt. apply Rplus_le_compat_r.
    apply pow_incr. lra. }
  split; [exact Hts|]. rewrite !safety_margin_eq.
  pose proof (tensile_stress_pos (TubeComponent_init F1 M1 t m) i o) as Hp1.
  pose proof R_350e6_pos as Hy.
  unfold Rdiv. apply Rplus_le_compat_r, Rmult_le_compat_l; [lra|].
  apply Rinv_le_contravar; lra.
Qed.

Lemma safety_margin_antitone_loads_witness :
  tensile_stress (compute_locals (TubeComponent_init 10e3 5e3 3 0.05) 0.06 0.1)
  <= tensile_stress
       (compute_locals (TubeComponent_init 20e3 6e3 3 0.05) 0.06 0.1)
  ∧ safety_margin
      (compute_locals (TubeComponent_init 20e3 6e3 3 0.05) 0.06 0.1)
    <= safety_margin
         (compute_locals (TubeComponent_init 10e3 5e3 3 0.05) 0.06 0.1).
Proof.
  apply (safety_margin_antitone_loads 10e3 20e3 5e3 6e3 3 0.05 0.06 0.1);
    change (Z.pow_pos 10 3) with 1000%Z; lra.
Defined.

End MarginFacts.

(** ** Feasible design points *)

Section FeasibleFacts.
Import RealModel.
Local Open Scope R_scope.
Implicit Types (comp : _TubeComponent R) (inputs : gmap string R).

Lemma in_design_bounds_iff comp inputs :
  in_design_bounds (setup comp empty_system) inputs
  ↔ (∃ i, inputs !! "inner_diam" = Some i ∧ 0.005 <= i <= 0.5)
    ∧ (∃ o, inputs !! "outer_diam" = Some o ∧ 0.01 <= o <= 0.6).
Proof.
  unfold in_design_bounds. rewrite setup_real. cbn [design_vars].
  rewrite !Forall_cons, Forall_nil.
  cbn [dv_name dv_lower dv_upper]. unfold within. tauto.
Qed.

Lemma meets_constraints_iff comp (outs : gmap string R) :
  meets_constraints (setup comp empty_system) outs
  ↔ (∃ v, outs !! "thickness" = Some v
          ∧ _thickness_lower_bound comp / 1000 <= v)
    ∧ (∃ v, outs !! "safety_margins" = Some v
            ∧ _safety_margin_lower_bound comp <= v)
    ∧ (∃ v, outs !! "diam_over_thickness" = Some v ∧ 2 <= v <= 25).
Proof.
  unfold meets_constraints. rewrite setup_real. cbn [constraints].
  rewrite !Forall_cons, Forall_nil.
  cbn [con_name con_lower con_upper]. unfold within. split.
  - intros ((v1 & ? & ? & _) & (v2 & ? & ? & _) & (v3 & ? & ?) & _).
    repeat split; eauto.
  - intros ((v1 & ? & ?) & (v2 & ? & ?) & (v3 & ? & ?)).
    repeat split; eauto.
Qed.

(** Feasibility, spelled out on the two diameters. *)
Lemma feasible_iff comp inputs :
  feasible comp inputs
  ↔ ∃ i o,
      inputs !! "inner_diam" = Some i ∧ inputs !! "outer_diam" = Some o
      ∧ 0.005 <= i <= 0.5 ∧ 0.01 <= o <= 0.6
      ∧ _thickness_lower_bound comp / 1000
        <= thickness (compute_locals comp i o)
      ∧ _safety_margin_lower_bound comp
        <= safety_margin (compute_locals comp i o)
      ∧ 2 <= diam_over_thickness (compute_locals comp i o) <= 25.
Proof.
  unfold feasible. rewrite in_design_bounds_iff. split.
  - intros (((i & Hi & Hib) & (o & Ho & Hob)) & outs & Hc & Hm).
    apply meets_constraints_iff in Hm
      as ((vt & Ht & Ht1) & (vs & Hs & Hs1) & (vd & Hd & Hd1)).
    destruct (compute_outputs comp inputs ∅ i o Hi Ho)
      as (outs' & Hc' & Ea & Et & Ed & Es).
    rewrite Hc in Hc'. injection Hc' as <-.
    rewrite Et in Ht. injection Ht as <-.
    rewrite Es in Hs. injection Hs as <-.
    rewrite Ed in Hd. injection Hd as <-.
    exists i, o. repeat (split; [assumption|]). assumption.
  - intros (i & o & Hi & Ho & Hib & Hob & Ht & Hs & Hd).
    destruct (compute_outputs comp inputs ∅ i o Hi Ho)
      as (outs & Hc & Ea & Et & Ed & Es).
    split; [split; eauto|].
    exists outs. split; [exact Hc|].
    apply meets_constraints_iff. repeat split; eauto.
Qed.


(** X16: no design point is feasible once the thickness threshold exceeds
    297.5 mm: inside the design-variable bounds the wall is at most
    [(0.6 - 0.005)/2] m thick. *)
Theorem no_feasible_point_beyond_297_5 comp inputs :
  297.5 < _thickness_lower_bound comp → ¬ feasible comp inputs.
Proof.
  intros Ht Hf. apply feasible_iff in Hf
    as (i & o & _ & _ & Hib & Hob & Hth & _).
  rewrite thickness_eq in Hth. lra.
Qed.

Lemma no_feasible_point_beyond_297_5_witness :
  ¬ feasible (TubeComponent_init 10e3 5e3 300 0.05)
      {[ "inner_diam" := 0.005; "outer_diam" := 0.6 ]}.
Proof.
  apply (no_feasible_point_beyond_297_5
           (TubeComponent_init 10e3 5e3 300 0.05)
           {[ "inner_diam" := 0.005; "outer_diam" := 0.6 ]}).
  cbn [_thickness_lower_bound]. lra.
Defined.






End FeasibleFacts.

(** ** What [optimize] reports *)

Section OptimizeReturnFacts.
Context {T : Type} `{Float64 T}.
Variable run_driver : Problem T → bool * gmap string T.
Implicit Types (self : TubeOptimization T) (vals : gmap string T).

Lemma get_val_None (p : Problem T) vals name units :
  vals !! name = None → get_val p vals name units = None.
Proof. intros Hv. unfold get_val. by rewrite Hv. Qed.

Lemma optimize_unfold self msm mt flag vals :
  run_driver (problem_of self msm mt) = (flag, vals) →
  optimize run_driver self msm mt
  = (inner_diam ← get_val (problem_of self msm mt) vals "inner_diam" "mm";
     outer_diam ← get_val (problem_of self msm mt) vals "outer_diam" "mm";
     thickness ← get_val (problem_of self msm mt) vals "thickness" "mm";
     safety_margins ←
       get_val (problem_of self msm mt) vals "safety_margins" "unitless";
     Some (negb flag,
           (py_round inner_diam 3, py_round outer_diam 3,
            py_round thickness 3, py_round safety_margins 4))).
Proof.
  intros Hrun. unfold optimize. fold (problem_of self msm mt).
  by rewrite Hrun.
Qed.

(** X20: [optimize] returns normally exactly when the optimizer has left a
    value for each of [inner_diam], [outer_diam], [thickness] and
    [safety_margins]; when one is missing, reading it back raises. *)
Theorem optimize_returns_iff self msm mt flag vals :
  run_driver (problem_of self msm mt) = (flag, vals) →
  is_Some (optimize run_driver self msm mt)
  ↔ ∀ name,
      name ∈ ["inner_diam"; "outer_diam"; "thickness"; "safety_margins"] →
      is_Some (vals !! name).
Proof.
  intros Hrun. split.
  - intros Hsome name Hn.
    rewrite (optimize_unfold _ _ _ _ _ Hrun) in Hsome.
    destruct (vals !! "inner_diam") as [vi|] eqn:Hi;
      [|rewrite (get_val_None _ _ _ _ Hi) in Hsome; by destruct Hsome].
    destruct (get_val _ vals "inner_diam" "mm"); [|by destruct Hsome].
    destruct (vals !! "outer_diam") as [vo|] eqn:Ho;
      [|rewrite (get_val_None _ _ _ _ Ho) in Hsome; by destruct Hsome].
    destruct (get_val _ vals "outer_diam" "mm"); [|by destruct Hsome].
    destruct (vals !! "thickness") as [vt|] eqn:Ht;
      [|rewrite (get_val_None _ _ _ _ Ht) in Hsome; by destruct Hsome].
    destruct (get_val _ vals "thickness" "mm"); [|by destruct Hsome].
    destruct (vals !! "safety_margins") as [vs|] eqn:Hs;
      [|rewrite (get_val_None _ _ _ _ Hs) in Hsome; by destruct Hsome].
    repeat (apply elem_of_cons in Hn as [->|Hn]; [by eexists|]).
    by apply elem_of_nil in Hn.
  - intros Hall.
    destruct (Hall "inner_diam") as [vi Hi]; [set_solver|].
    destruct (Hall "outer_diam") as [vo Ho]; [set_solver|].
    destruct (Hall "thickness") as [vt Ht]; [set_solver|].
    destruct (Hall "safety_margins") as [vs Hs]; [set_solver|].
    by rewrite (optimize_eq run_driver _ _ _ _ _ _ _ _ _ Hrun Hi Ho Ht Hs).
Qed.

End OptimizeReturnFacts.

Section ReportFacts.
Import RealModel.
Local Open Scope R_scope.

Lemma optimize_returns_iff_witness :
  is_Some
    (optimize
       (λ _, (false, {[ "inner_diam" := 0.05; "outer_diam" := 0.08;
                        "thickness" := 0.015; "safety_margins" := 0.2 ]}))
       (TubeOptimization_init 10e3 5e3) 0.05 3)
  ↔ ∀ name,
      name ∈ ["inner_diam"; "outer_diam"; "thickness"; "safety_margins"] →
      is_Some
        (({[ "inner_diam" := 0.05; "outer_diam" := 0.08;
             "thickness" := 0.015; "safety_margins" := 0.2 ]}
          : gmap string R) !! name).
Proof.
  apply (optimize_returns_iff
           (λ _, (false, {[ "inner_diam" := 0.05; "outer_diam" := 0.08;
                            "thickness" := 0.015; "safety_margins" := 0.2 ]}))
           (TubeOptimization_init 10e3 5e3) 0.05 3 false
           {[ "inner_diam" := 0.05; "outer_diam" := 0.08;
              "thickness" := 0.015; "safety_margins" := 0.2 ]}).
  reflexivity.
Defined.

(** *** Rounding *)

Lemma Rabs_le_between x a : Rabs x <= a → - a <= x <= a.
Proof. unfold Rabs. destruct (Rcase_abs x); lra. Qed.

Lemma Int_part_IZR k : Int_part (IZR k) = k.
Proof. symmetry. apply Int_part_spec. lra. Qed.

Lemma rint_IZR k : rint (IZR k) = k.
Proof.
  unfold rint, frac_part. rewrite Int_part_IZR.
  destruct (Rlt_dec (IZR k - IZR k) (1 / 2)) as [_|Hn]; [reflexivity|].
  exfalso. apply Hn. lra.
Qed.

Lemma rint_mono x y : x <= y → (rint x <= rint y)%Z.
Proof.
  intros Hxy. destruct (Z_le_gt_dec (rint x) (rint y)) as [Hle|Hgt]; [exact Hle|].
  exfalso.
  pose proof (rint_close x) as Hx. pose proof (rint_close y) as Hy.
  apply Rabs_le_between in Hx, Hy.
  assert (Hz : (rint y + 1 <= rint x)%Z) by lia.
  apply IZR_le in Hz. rewrite plus_IZR in Hz.
  assert (Heq : x = y) by lra. subst y. lia.
Qed.

Lemma powerRZ_10_pos n : 0 < powerRZ 10 n.
Proof. apply powerRZ_lt. lra. Qed.

Lemma round_ndigits_mono x y n :
  x <= y → round_ndigits x n <= round_ndigits y n.
Proof.
  intros Hxy. unfold round_ndigits. pose proof (powerRZ_10_pos n) as Hp.
  unfold Rdiv. apply Rmult_le_compat_r; [left; by apply Rinv_0_lt_compat|].
  apply IZR_le, rint_mono. apply Rmult_le_compat_r; lra.
Qed.

(** X21: [round] is idempotent: a value already rounded to [n] decimals is
    left as it is by rounding again. *)
Theorem round_ndigits_idempotent x n :
  round_ndigits (round_ndigits x n) n = round_ndigits x n.
Proof.
  unfold round_ndigits at 1. pose proof (powerRZ_10_pos n) as Hp.
  replace (round_ndigits x n * powerRZ 10 n)
    with (IZR (rint (x * powerRZ 10 n)))
    by (unfold round_ndigits; field; lra).
  by rewrite rint_IZR.
Qed.

Variable run_driver : Problem R → bool * gmap string R.

(** X22: the reported diameters keep their order: if the optimizer ends
    with [inner_diam <= outer_diam], then the rounded inner diameter
    [optimize] returns is at most the rounded outer diameter. *)
Theorem optimize_keeps_diameter_order
    (self : TubeOptimization R) (msm mt : R) flag vals vi vo vt vs :
  run_driver (problem_of self msm mt) = (flag, vals) →
  vals !! "inner_diam" = Some vi → vals !! "outer_diam" = Some vo →
  vals !! "thickness" = Some vt → vals !! "safety_margins" = Some vs →
  vi <= vo →
  ∃ c ri ro rt rs,
    optimize run_driver self msm mt = Some (c, (ri, ro, rt, rs))
    ∧ ri <= ro.
Proof.
  intros Hrun Hi Ho Ht Hs Hle. do 5 eexists. split.
  - exact (optimize_eq run_driver _ _ _ _ _ _ _ _ _ Hrun Hi Ho Ht Hs).
  - change (@py_round R RealOps) with round_ndigits.
    change (@f_mul R RealOps) with Rmult. rewrite lit_1000.
    apply round_ndigits_mono. lra.
Qed.


End ReportFacts.

Section ReportWitnesses.
Import RealModel.
Local Open Scope R_scope.

Lemma optimize_keeps_diameter_order_witness :
  ∃ c ri ro rt rs,
    optimize
      (λ _, (false, {[ "inner_diam" := 0.05; "outer_diam" := 0.08;
                       "thickness" := 0.015; "safety_margins" := 0.2 ]}))
      (TubeOptimization_init 10e3 5e3) 0.05 3
    = Some (c, (ri, ro, rt, rs))
    ∧ ri <= ro.
Proof.
  apply (optimize_keeps_diameter_order
           (λ _, (false, {[ "inner_diam" := 0.05; "outer_diam" := 0.08;
                            "thickness" := 0.015; "safety_margins" := 0.2 ]}))
           (TubeOptimization_init 10e3 5e3) 0.05 3 false
           {[ "inner_diam" := 0.05; "outer_diam" := 0.08;
              "thickness" := 0.015; "safety_margins" := 0.2 ]}
           0.05 0.08 0.015 0.2);
    [reflexivity | reflexivity | reflexivity | reflexivity | reflexivity | lra].
Defined.


End ReportWitnesses.

(** ** Which calls are accepted *)

Section BindingFacts.
Context {T : Type} `{Float64 T}.
Variable run_driver : Problem T → bool * gmap string T.
Implicit Types (params kwargs : list (string * T)) (args : list T).
Implicit Types (env : gmap string T).

Lemma bind_positional_nil params env :
  bind_positional params [] env = Some env.
Proof. by destruct params as [|[p d] params]. Qed.

Lemma bind_positional_None params args env :
  bind_positional params args env = None ↔ length params < length args.
Proof.
  revert params env. induction args as [|a args IH]; intros params env.
  - rewrite bind_positional_nil. simpl. split; [done|lia].
  - destruct params as [|[p d] params]; simpl.
    + split; [intros _; lia|done].
    + rewrite IH. lia.
Qed.

Lemma bind_positional_dom params args env env' :
  bind_positional params args env = Some env' →
  dom env' = dom env ∪ list_to_set (take (length args) params.*1).
Proof.
  revert params env. induction args as [|a args IH]; intros params env.
  - rewrite bind_positional_nil. intros [= <-]. set_solver.
  - destruct params as [|[p d] params]; simpl; [done|].
    intros Hb. rewrite (IH _ _ Hb), dom_insert_L. set_solver.
Qed.

Lemma bind_keywords_Some params kwargs env :
  keywords_ok params kwargs (dom env) →
  ∃ env', bind_keywords params kwargs env = Some env'
          ∧ dom env' = dom env ∪ list_to_set kwargs.*1.
Proof.
  revert env. induction kwargs as [|[k v] kwargs IH]; intros env [Hnd Hall].
  - exists env. split; [done|]. set_solver.
  - cbn [fmap list_fmap fst] in *. apply NoDup_cons in Hnd as [Hk Hnd].
    destruct (Hall k) as [Hin Hout]; [set_solver|].
    cbn [bind_keywords]. rewrite bool_decide_eq_true_2 by done.
    apply not_elem_of_dom in Hout. rewrite Hout.
    destruct (IH (<[k:=v]> env)) as (env' & Hb & Hd).
    { split; [done|]. intros k' Hk'. destruct (Hall k') as [? ?]; [set_solver|].
      split; [done|]. rewrite dom_insert_L. set_solver. }
    exists env'. split; [done|]. rewrite Hd, dom_insert_L. set_solver.
Qed.

Lemma bind_keywords_ok params kwargs env env' :
  bind_keywords params kwargs env = Some env' →
  keywords_ok params kwargs (dom env).
Proof.
  revert env. induction kwargs as [|[k v] kwargs IH]; intros env.
  - intros _. split; [apply NoDup_nil_2|]. intros k Hk. by apply elem_of_nil in Hk.
  - cbn [bind_keywords].
    destruct (bool_decide (k ∈ params.*1)) eqn:Hin; [|done].
    apply bool_decide_eq_true in Hin.
    destruct (env !! k) eqn:Hk; [done|]. intros Hb.
    destruct (IH _ Hb) as [Hnd Hall]. rewrite dom_insert_L in Hall.
    apply not_elem_of_dom in Hk.
    split.
    + cbn [fmap list_fmap fst]. apply NoDup_cons. split; [|done].
      intros Hk'. destruct (Hall k Hk'). set_solver.
    + cbn [fmap list_fmap fst]. intros k' [->|Hk']%elem_of_cons; [done|].
      destruct (Hall k' Hk'). split; [done|]. set_solver.
Qed.

Lemma bind_defaults_dom params env :
  dom (bind_defaults params env) = dom env ∪ list_to_set params.*1.
Proof.
  unfold bind_defaults. induction params as [|[p d] params IH]; simpl.
  - set_solver.
  - match goal with |- context [foldr ?f env params] => set (e := foldr f env params) in * end.
    destruct (e !! p) as [x|] eqn:Hp.
    + assert (p ∈ dom e) as Hd by (apply elem_of_dom; by eexists).
      rewrite IH in *. set_solver.
    + rewrite dom_insert_L, IH. set_solver.
Qed.

Lemma bind_args_Some_iff params args kwargs :
  is_Some (bind_args params args kwargs)
  ↔ length args <= length params
    ∧ keywords_ok params kwargs
        (list_to_set (take (length args) params.*1)).
Proof.
  unfold bind_args. split.
  - intros [env Hb].
    destruct (bind_positional params args ∅) as [env1|] eqn:Hpos; [|done].
    simpl in Hb.
    destruct (bind_keywords params kwargs env1) as [env2|] eqn:Hkw; [|done].
    split.
    + destruct (le_lt_dec (length args) (length params)) as [?|Hlt]; [done|].
      apply (bind_positional_None params args ∅) in Hlt.
      by rewrite Hlt in Hpos.
    + apply bind_keywords_ok in Hkw.
      rewrite (bind_positional_dom _ _ _ _ Hpos), dom_empty_L, (left_id_L ∅ (∪)) in Hkw.
      done.
  - intros [Hlen Hok].
    destruct (bind_positional params args ∅) as [env1|] eqn:Hpos.
    + simpl.
      destruct (bind_keywords_Some params kwargs env1) as (env2 & Hkw & _).
      { by rewrite (bind_positional_dom _ _ _ _ Hpos), dom_empty_L, (left_id_L ∅ (∪)). }
      rewrite Hkw. simpl. by eexists.
    + apply bind_positional_None in Hpos. lia.
Qed.

Lemma bind_args_dom params args kwargs env :
  bind_args params args kwargs = Some env →
  ∀ p, p ∈ params.*1 → is_Some (env !! p).
Proof.
  unfold bind_args. intros Hb p Hp.
  destruct (bind_positional params args ∅) as [env1|]; [|done]. simpl in Hb.
  destruct (bind_keywords params kwargs env1) as [env2|]; [|done].
  simpl in Hb. injection Hb as <-.
  apply elem_of_dom. rewrite bind_defaults_dom. set_solver.
Qed.

(** X24: which calls of [optimize] are accepted.  A call raises a
    [TypeError] unless it passes at most two positional arguments and its
    keywords are distinct, each naming one of the two parameters that was
    not already given positionally; every other call is bound, so that
    [optimize] runs. *)
Theorem call_optimize_TypeError_iff (self : TubeOptimization T) args kwargs :
  call_optimize run_driver self args kwargs = Raises TypeError
  ↔ ¬ (length args <= 2
       ∧ keywords_ok optimize_params kwargs
           (list_to_set
              (take (length args)
                 ["minimim_safety_margin"; "minimum_thickness"]))).
Proof.
  unfold call_optimize.
  pose proof (bind_args_Some_iff optimize_params args kwargs) as Hiff.
  change (length optimize_params) with 2 in Hiff.
  change (optimize_params.*1)
    with ["minimim_safety_margin"; "minimum_thickness"] in Hiff.
  destruct (bind_args optimize_params args kwargs) as [env|] eqn:Hb.
  - assert (Hgood : is_Some (Some env)) by by eexists.
    apply Hiff in Hgood.
    destruct (bind_args_dom _ _ _ _ Hb "minimim_safety_margin")
      as [msm Hm]; [set_solver|].
    destruct (bind_args_dom _ _ _ _ Hb "minimum_thickness")
      as [mt Ht]; [set_solver|].
    rewrite Hm, Ht.
    split; [|done]. by destruct (optimize run_driver self msm mt).
  - split; [|done]. intros _ Hgood. apply Hiff in Hgood. by destruct Hgood.
Qed.

End BindingFacts.

(** ** Constructing the component and the wrapper *)

Section ConstructorFacts.
Context {T : Type} `{Float64 T}.

(** X25: [optimize] builds its component by keyword, so each threshold
    reaches the attribute of its kind although [optimize] lists the margin
    first and [_TubeComponent.__init__] the thickness first; and the
    defaults of the two agree: [_TubeComponent(F, M)] is the component that
    [optimize()] builds. *)
Theorem TubeComponent_call_in_optimize (F M msm mt : T) :
  TubeComponent_call []
    [("axial_force", F); ("bending_moment", M);
     ("thickness_lower_bound", mt); ("safety_margin_lower_bound", msm)]
  = Returns (tube (problem_of (TubeOptimization_init F M) msm mt))
  ∧ TubeComponent_call [F; M] []
    = Returns (tube (problem_of (TubeOptimization_init F M)
                       (f_lit 0) (f_lit 1)))
  ∧ TubeComponent_call [F; M; msm; mt] []
    = Returns (TubeComponent_init F M msm mt).
Proof. repeat split. Qed.

(** X26: both loads are required.  With positional arguments only,
    [TubeOptimization(...)] raises a [TypeError] unless it gets exactly
    two, and [_TubeComponent(...)] unless it gets two, three or four. *)
Theorem constructors_required_arguments (args : list T) :
  (TubeOptimization_call args [] = Raises TypeError ↔ length args ≠ 2)
  ∧ (TubeComponent_call args [] = Raises TypeError
     ↔ ¬ (2 <= length args <= 4)).
Proof.
  destruct args as [|a1 [|a2 [|a3 [|a4 [|a5 args]]]]]; simpl;
    (split; (split; [intros Hr; (lia || discriminate Hr)
                    |intros Hl; (reflexivity || (exfalso; lia))])).
Qed.

End ConstructorFacts.

(** ** More on non-finite values, in binary64 *)

Section Binary64EdgeFacts.
Import Binary64.
Variable libm_pow : spec_float → nat → spec_float.
Variable np_round : spec_float → Z → spec_float.
Implicit Types (self : _TubeComponent spec_float).

Lemma SFsub_nan_l y : SFsub prec emax S754_nan y = S754_nan.
Proof. reflexivity. Qed.

Lemma SFsub_nan_r x : SFsub prec emax x S754_nan = S754_nan.
Proof. by destruct x. Qed.

Lemma SFdiv_nan_r x : SFdiv prec emax x S754_nan = S754_nan.
Proof. by destruct x. Qed.

(** X27: a NaN diameter propagates without an error: if either input is
    NaN, the thickness and [diam_over_thickness] are NaN. *)
Theorem compute_nan_propagates self i o :
  i = S754_nan ∨ o = S754_nan →
  thickness (compute_locals (H := B64Ops libm_pow np_round) self i o)
  = S754_nan
  ∧ diam_over_thickness
      (compute_locals (H := B64Ops libm_pow np_round) self i o)
    = S754_nan.
Proof.
  intros Hnan. unfold compute_locals.
  cbn [thickness diam_over_thickness f_div f_sub f_lit B64Ops].
  assert (Hs : SFsub prec emax o i = S754_nan).
  { destruct Hnan as [-> | ->]; [apply SFsub_nan_r|apply SFsub_nan_l]. }
  rewrite Hs. cbn [SFdiv]. split; [reflexivity|apply SFdiv_nan_r].
Qed.

(** X28: at equal finite nonzero diameters the thickness is [+0] and
    [diam_over_thickness] is the infinity that has the sign of the
    diameter. *)
Theorem equal_finite_diameters self s m e :
  thickness
    (compute_locals (H := B64Ops libm_pow np_round) self
       (S754_finite s m e) (S754_finite s m e))
  = S754_zero false
  ∧ diam_over_thickness
      (compute_locals (H := B64Ops libm_pow np_round) self
         (S754_finite s m e) (S754_finite s m e))
    = S754_infinity s.
Proof.
  unfold compute_locals.
  cbn [thickness diam_over_thickness f_div f_sub f_lit B64Ops].
  rewrite SFsub_diag_finite, b64_lit_2. cbn [SFdiv xorb].
  by destruct s.
Qed.

End Binary64EdgeFacts.

Lemma compute_nan_propagates_witness :
  thickness
    (compute_locals (H := Binary64.B64Ops (λ x _, x) (λ x _, x))
       (TubeComponent_init (Binary64.b64_lit 10e3) (Binary64.b64_lit 5e3)
          (Binary64.b64_lit 3) (Binary64.b64_lit 0.05))
       S754_nan (Binary64.b64_lit 0.1))
  = S754_nan
  ∧ diam_over_thickness
      (compute_locals (H := Binary64.B64Ops (λ x _, x) (λ x _, x))
         (TubeComponent_init (Binary64.b64_lit 10e3) (Binary64.b64_lit 5e3)
            (Binary64.b64_lit 3) (Binary64.b64_lit 0.05))
         S754_nan (Binary64.b64_lit 0.1))
    = S754_nan.
Proof.
  apply (compute_nan_propagates (λ x _, x) (λ x _, x)
           (TubeComponent_init (Binary64.b64_lit 10e3) (Binary64.b64_lit 5e3)
              (Binary64.b64_lit 3) (Binary64.b64_lit 0.05))
           S754_nan (Binary64.b64_lit 0.1)).
  left. reflexivity.
Defined.

Section ComputeSetupWitnesses.
Import RealModel.
Local Open Scope R_scope.

Lemma compute_frame_witness :
  ∃ outs,
    compute (TubeComponent_init 10e3 5e3 3 0.05)
      {[ "inner_diam" := 0.06; "outer_diam" := 0.1 ]}
      {[ "other" := 2 ]} = Some outs
    ∧ outs !! "other" = ({[ "other" := 2 ]} : gmap string R) !! "other".
Proof.
  eexists. split.
  - apply (compute_Some _ _ _ 0.06 0.1); reflexivity.
  - apply (compute_frame (TubeComponent_init 10e3 5e3 3 0.05)
             {[ "inner_diam" := 0.06; "outer_diam" := 0.1 ]}
             {[ "other" := 2 ]}).
    + apply (compute_Some _ _ _ 0.06 0.1); reflexivity.
    + intros Hin.
      repeat (apply elem_of_cons in Hin as [Hin|Hin]; [discriminate Hin|]).
      by apply elem_of_nil in Hin.
Defined.

Lemma compute_twice_witness :
  ∃ outs,
    compute (TubeComponent_init 10e3 5e3 3 0.05)
      {[ "inner_diam" := 0.06; "outer_diam" := 0.1 ]} ∅ = Some outs
    ∧ compute (TubeComponent_init 10e3 5e3 3 0.05)
        {[ "inner_diam" := 0.06; "outer_diam" := 0.1 ]} outs = Some outs.
Proof.
  eexists. split.
  - apply (compute_Some _ _ _ 0.06 0.1); reflexivity.
  - apply (compute_twice (TubeComponent_init 10e3 5e3 3 0.05)
             {[ "inner_diam" := 0.06; "outer_diam" := 0.1 ]} ∅).
    apply (compute_Some _ _ _ 0.06 0.1); reflexivity.
Defined.

Lemma compute_stores_declared_outputs_witness :
  ∃ outs,
    compute (TubeComponent_init 10e3 5e3 3 0.05)
      {[ "inner_diam" := 0.06; "outer_diam" := 0.1 ]} ∅ = Some outs
    ∧ (is_Some (outs !! "area")
       ↔ "area" ∈ map out_name
                    (var_outputs
                       (setup (TubeComponent_init 10e3 5e3 3 0.05)
                          empty_system))).
Proof.
  eexists. split.
  - apply (compute_Some _ _ _ 0.06 0.1); reflexivity.
  - apply (compute_stores_declared_outputs
             (TubeComponent_init 10e3 5e3 3 0.05)
             {[ "inner_diam" := 0.06; "outer_diam" := 0.1 ]}).
    apply (compute_Some _ _ _ 0.06 0.1); reflexivity.
Defined.

End ComputeSetupWitnesses.

(** ** The area under binary64 rounding *)

Section Binary64Area.
Import Binary64.
Variable libm_pow : spec_float → nat → spec_float.
Variable np_round : spec_float → Z → spec_float.

(** With the square taken as [x * x], the area does not depend on how the
    other powers and [round] are computed; at these two neighbouring outer
    diameters it is the same binary64 value. *)
Lemma area_adjacent_outer_diameters (self : _TubeComponent spec_float) :
  area (compute_locals (H := B64Ops (np_power libm_pow) np_round) self
          (S754_finite false 8971389593759734 (-56))
          (S754_finite false 8644559118487240 (-54)))
  = S754_finite false 6077439769139502 (-55)
  ∧ area (compute_locals (H := B64Ops (np_power libm_pow) np_round) self
            (S754_finite false 8971389593759734 (-56))
            (S754_finite false 8644559118487241 (-54)))
    = S754_finite false 6077439769139502 (-55).
Proof. split; vm_compute; reflexivity. Qed.

End Binary64Area.

(** C7, as the claim states it, fails on binary64: the inner diameter
    [8971389593759734 * 2^-56] (about 0.1245 m) and the neighbouring outer
    diameters [8644559118487240 * 2^-54 < 8644559118487241 * 2^-54] (about
    0.4799 m) are positive and inside the design-variable bounds, and
    [compute] stores the same area for both, so the first is not strictly
    below the second. *)
Lemma area_not_strictly_increasing_binary64 :
  SFltb (S754_zero false) (S754_finite false 8644559118487240 (-54)) = true
  ∧ SFltb (S754_finite false 8644559118487240 (-54))
          (S754_finite false 8644559118487241 (-54)) = true
  ∧ SFleb (Binary64.b64_lit 0.005)
          (S754_finite false 8971389593759734 (-56)) = true
  ∧ SFleb (S754_finite false 8971389593759734 (-56))
          (Binary64.b64_lit 0.5) = true
  ∧ SFleb (Binary64.b64_lit 0.01)
          (S754_finite false 8644559118487240 (-54)) = true
  ∧ SFleb (S754_finite false 8644559118487241 (-54))
          (Binary64.b64_lit 0.6) = true
  ∧ output_of
      (H := Binary64.B64Ops (Binary64.np_power (λ x _, x)) (λ x _, x))
      (TubeComponent_init (Binary64.b64_lit 10e3) (Binary64.b64_lit 5e3)
         (Binary64.b64_lit 3) (Binary64.b64_lit 0.05))
      {[ "inner_diam" := S754_finite false 8971389593759734 (-56);
         "outer_diam" := S754_finite false 8644559118487240 (-54) ]}
      ∅ "area"
    = Some (S754_finite false 6077439769139502 (-55))
  ∧ output_of
      (H := Binary64.B64Ops (Binary64.np_power (λ x _, x)) (λ x _, x))
      (TubeComponent_init (Binary64.b64_lit 10e3) (Binary64.b64_lit 5e3)
         (Binary64.b64_lit 3) (Binary64.b64_lit 0.05))
      {[ "inner_diam" := S754_finite false 8971389593759734 (-56);
         "outer_diam" := S754_finite false 8644559118487241 (-54) ]}
      ∅ "area"
    = Some (S754_finite false 6077439769139502 (-55))
  ∧ SFltb (S754_finite false 6077439769139502 (-55))
          (S754_finite false 6077439769139502 (-55)) = false.
Proof. repeat split; vm_compute; reflexivity. Qed.
